(** * location_app: contact submissions and their admin dashboard

    A shallow embedding of the two components that carry the logic of the
    application:

    - [ContactForm] (the form component): [getDeviceLocation],
      [getVisitorData] and [handleSubmit] with its retry loop around the
      store write;
    - [AdminDashboard] (components/AdminDashboard): the mapping of stored
      documents to table rows, the filter, sort and pagination derivations,
      the CSV export and the bulk delete.

    Strings are [string] (the ASCII fragment of JS strings), integers are [Z],
    loop counters are [nat].  What the browser supplies and the source only
    calls (doubles and their printing, [Date], [localeCompare]) is gathered in
    the class [Host]. *)

From Stdlib Require Import ZArith List String Ascii Bool Lia Setoid.
From Stdlib Require Import Numbers.DecimalString.
From Stdlib Require Import Permutation.
Import ListNotations.
Local Open Scope list_scope.
Local Open Scope string_scope.

(** ** JavaScript string and array primitives used by the source *)

Module Js.

(** The character U+0022. *)
Definition dquote : ascii := ascii_of_nat 34.

Definition lowerChar (c : ascii) : ascii :=
  let n := nat_of_ascii c in
  if ((65 <=? n) && (n <=? 90))%nat then ascii_of_nat (n + 32) else c.

(** [String.prototype.toLowerCase] on ASCII strings. *)
Fixpoint toLowerCase (s : string) : string :=
  match s with
  | EmptyString => EmptyString
  | String c s' => String (lowerChar c) (toLowerCase s')
  end.

(** [s.includes(t)]: [t] occurs in [s] at some index. *)
Fixpoint includes (s t : string) : bool :=
  prefix t s ||
  match s with
  | EmptyString => false
  | String _ s' => includes s' t
  end.

(** The global replace of [handleExport]: every U+0022 becomes two. *)
Fixpoint doubleQuotes (s : string) : string :=
  match s with
  | EmptyString => EmptyString
  | String c s' =>
      if Ascii.eqb c dquote
      then String dquote (String dquote (doubleQuotes s'))
      else String c (doubleQuotes s')
  end.

(** [arr.join(sep)] on an array whose elements are already strings. *)
Definition join (sep : string) (l : list string) : string := String.concat sep l.

(** U+000A. *)
Definition newline : ascii := ascii_of_nat 10.

(** [s.split(sep)[0]] for a one-character separator. *)
Fixpoint beforeChar (sep : ascii) (s : string) : string :=
  match s with
  | EmptyString => EmptyString
  | String c s' => if Ascii.eqb c sep then EmptyString else String c (beforeChar sep s')
  end.

(** Truthiness of a property that holds a string, [null] or [undefined]. *)
Definition truthy (o : option string) : bool :=
  match o with
  | Some s => negb (s =? EmptyString)
  | None => false
  end.

(** [o || d] for such a property. *)
Definition orElse (o : option string) (d : string) : string :=
  match o with
  | Some s => if s =? EmptyString then d else s
  | None => d
  end.

(** Number::toString of an integer. *)
Definition intToString (z : Z) : string := NilEmpty.string_of_int (Z.to_int z).

End Js.

(** ** What the browser provides *)

Class Host := {
  (** IEEE doubles, as delivered by the geolocation and screen APIs. *)
  number : Type;
  (** ToBoolean on a number: false exactly for +0, -0 and NaN. *)
  numberToBoolean : number -> bool;
  (** Number::toString, as used by template literals. *)
  numberToString : number -> string;
  (** [Date.prototype.toString] of a valid time value (ms since the epoch). *)
  dateToString : Z -> string;
  (** [Date.parse]; [None] stands for NaN. *)
  dateParse : string -> option Z;
  (** [String.prototype.localeCompare]. *)
  localeCompare : string -> string -> Z
}.

(** ** Exceptions and promises

    An awaited promise either fulfils or rejects; a rejection is a [Throw] at
    the [await].  [try]/[catch] is [catch]. *)

Module Exn.

Record js_error := { code : option string; message : string }.

(** [new Error(msg)]: no [code] property. *)
Definition newError (msg : string) : js_error := {| code := None; message := msg |}.

Inductive completion (A : Type) : Type :=
| Normal (a : A)
| Throw (e : js_error).
Arguments Normal {A} a.
Arguments Throw {A} e.

Definition bind {A B : Type} (c : completion A) (k : A -> completion B) : completion B :=
  match c with
  | Normal a => k a
  | Throw e => Throw e
  end.

Definition catch {A : Type} (c : completion A) (handler : js_error -> A) : A :=
  match c with
  | Normal a => a
  | Throw e => handler e
  end.

Definition fulfilled {A : Type} (c : completion A) : bool :=
  match c with
  | Normal _ => true
  | Throw _ => false
  end.

End Exn.
Import Exn.

Notation "x <- c ;; k" := (bind c (fun x => k))
  (at level 61, c at next level, right associativity).

(** ** The contact form *)

Module ContactForm.

(** A [fetch] that resolved: [response.ok], [response.status] and the outcome
    of [await response.json()]. *)
Record response (A : Type) := {
  ok : bool;
  status : Z;
  json : completion A
}.
Arguments ok {A} r.
Arguments status {A} r.
Arguments json {A} r.

Section WithHost.
Context {H : Host}.

(** The body of the IP provider: [ipData.ip], possibly undefined. *)
Record ip_data := { ip : option string }.

(** The body of the IP-geo provider. *)
Record location_data := {
  city : option string;
  region : option string;
  country : option string;
  postal : option string;
  timezone : option string
}.

(** [position.coords]. *)
Record coords := {
  coords_latitude : number;
  coords_longitude : number;
  coords_accuracy : number
}.

(** The object [getDeviceLocation] resolves with, or the all-null substitute. *)
Record device_location := {
  latitude : option number;
  longitude : option number;
  accuracy : option number
}.

(** Everything [getVisitorData] and [handleSubmit] read from their
    surroundings. *)
Record browser := {
  userAgent : string;
  screen_width : number;
  screen_height : number;
  language : string;
  resolvedTimeZone : string;
  platform : string;
  vendor : string;
  cookieEnabled : bool;
  doNotTrack : option string;
  onLine : bool;
  (** [None]: [navigator.geolocation] is missing; otherwise which callback
      [getCurrentPosition] invokes. *)
  geolocation : option (coords + js_error);
  (** [fetch('https://api.ipify.org?format=json', ...)]. *)
  fetchIpify : completion (response ip_data);
  (** [fetch(`https://ipinfo.io/${ip}/json?token=...`, ...)]. *)
  fetchIpinfo : option string -> completion (response location_data);
  (** [new Date().toISOString()] inside [getVisitorData]. *)
  enrichedAt : string;
  (** [new Date().toISOString()] inside [handleSubmit]. *)
  submittedNow : string
}.

Record device_details := {
  dd_userAgent : string;
  dd_screenResolution : string;
  dd_language : string;
  dd_timezone : string;
  dd_platform : string;
  dd_vendor : string;
  dd_cookiesEnabled : bool;
  dd_doNotTrack : option string;
  dd_online : bool
}.

Record visitor_location := {
  loc_latitude : option number;
  loc_longitude : option number;
  loc_accuracy : option number;
  loc_city : string;
  loc_region : string;
  loc_country : string;
  loc_postal : string;
  loc_timezone : string
}.

Record visitor_data := {
  vd_ip : option string;
  vd_location : visitor_location;
  vd_deviceDetails : device_details;
  vd_timestamp : string
}.

Definition getDeviceLocation (env : browser) : completion device_location :=
  match geolocation env with
  | None => Throw (newError "Geolocation is not supported")
  | Some (inl position) =>
      Normal {| latitude := Some (coords_latitude position);
                longitude := Some (coords_longitude position);
                accuracy := Some (coords_accuracy position) |}
  | Some (inr error) => Throw error
  end.

Definition getVisitorData (env : browser) : option visitor_data :=
  catch
    (ipResponse <- fetchIpify env ;;
     if negb (ok ipResponse)
     then Throw (newError ("IP API error: " ++ Js.intToString (status ipResponse)))
     else
     ipData <- json ipResponse ;;
     let ip := ip ipData in
     let deviceLocation :=
       catch (getDeviceLocation env)
             (fun locationError =>
                {| latitude := None; longitude := None; accuracy := None |}) in
     locationResponse <- fetchIpinfo env ip ;;
     if negb (ok locationResponse)
     then Throw (newError ("Location API error: " ++ Js.intToString (status locationResponse)))
     else
     locationData <- json locationResponse ;;
     let deviceDetails :=
       {| dd_userAgent := userAgent env;
          dd_screenResolution :=
            numberToString (screen_width env) ++ "x" ++ numberToString (screen_height env);
          dd_language := language env;
          dd_timezone := resolvedTimeZone env;
          dd_platform := platform env;
          dd_vendor := vendor env;
          dd_cookiesEnabled := cookieEnabled env;
          dd_doNotTrack := doNotTrack env;
          dd_online := onLine env |} in
     let visitorData :=
       {| vd_ip := ip;
          vd_location :=
            {| loc_latitude := latitude deviceLocation;
               loc_longitude := longitude deviceLocation;
               loc_accuracy := accuracy deviceLocation;
               loc_city := Js.orElse (city locationData) "Unknown";
               loc_region := Js.orElse (region locationData) "Unknown";
               loc_country := Js.orElse (country locationData) "Unknown";
               loc_postal := Js.orElse (postal locationData) "Unknown";
               loc_timezone := Js.orElse (timezone locationData) "Unknown" |};
          vd_deviceDetails := deviceDetails;
          vd_timestamp := enrichedAt env |} in
     Normal (Some visitorData))
    (fun error => None).

(** *** The submission writer *)

Record form_data := { name : string; email : string; message : string }.

Record contact_data := {
  cd_form : form_data;
  cd_visitorData : option visitor_data;
  cd_submittedAt : string
}.

Inductive submit_status := StatusSuccess | StatusError.

(** The component's state cells. *)
Record component := {
  formData : form_data;
  isSubmitting : bool;
  submitStatus : option submit_status
}.

(** What a run does to the outside: store writes and timers, in order. *)
Inductive event :=
| AddDoc (attempt : nat) (contactData : contact_data)
| SetTimeout (ms : Z).

(** The store's answer to the [k]-th [addDoc] call of a run (from 0): the new
    document's id, or a rejection. *)
Definition store := nat -> completion string.

Definition maxRetries : nat := 3.

Definition codeIs (error : js_error) (c : string) : bool :=
  match Exn.code error with
  | Some c' => c' =? c
  | None => false
  end.

(** The [while (retryCount < maxRetries)] loop.  Each iteration that does not
    leave the loop increments [retryCount], so [maxRetries] units of [fuel]
    are enough ([retryLoop_total]).  The result is the completion of the loop
    statement together with the state cells and the events so far. *)
Fixpoint retryLoop (fuel : nat) (addDoc : store) (contactData : contact_data)
    (retryCount : nat) (lastError : option js_error)
    (st : component) (tr : list event)
  : option (completion unit * component * list event) :=
  match fuel with
  | O => None
  | S fuel' =>
      if (retryCount <? maxRetries)%nat then
        let tr := (tr ++ [AddDoc (retryCount + 1) contactData])%list in
        match addDoc retryCount with
        | Normal docRef =>
            let st := {| formData := {| name := EmptyString; email := EmptyString; message := EmptyString |};
                         isSubmitting := isSubmitting st;
                         submitStatus := Some StatusSuccess |} in
            Some (Normal tt, st, tr)
        | Throw error =>
            let lastError := error in
            let retryCount := S retryCount in
            if codeIs error "permission-denied" then
              Some (Throw (newError "Permission denied. Please check your Firebase security rules."),
                    st, tr)
            else if codeIs error "unauthenticated" then
              Some (Throw (newError "Authentication required. Please check your Firebase configuration."),
                    st, tr)
            else if (retryCount =? maxRetries)%nat then
              Some (Throw lastError, st, tr)
            else
              let delay := (2 ^ Z.of_nat retryCount * 1000)%Z in
              retryLoop fuel' addDoc contactData retryCount (Some lastError) st
                        (tr ++ [SetTimeout delay])%list
        end
      else Some (Normal tt, st, tr)
  end.

(** One run of [handleSubmit]: the final state cells, the events, and the
    error that reached the outer [catch], if any. *)
Record run := {
  final : component;
  trace : list event;
  caught : option js_error
}.

Definition handleSubmit (env : browser) (addDoc : store) (st : component) : option run :=
  let st := {| formData := formData st; isSubmitting := true; submitStatus := None |} in
  let visitorData := getVisitorData env in
  let contactData :=
    {| cd_form := formData st;
       cd_visitorData := visitorData;
       cd_submittedAt := submittedNow env |} in
  match retryLoop maxRetries addDoc contactData 0 None st [] with
  | None => None
  | Some (Normal _, st, tr) =>
      Some {| final := {| formData := formData st; isSubmitting := false;
                          submitStatus := submitStatus st |};
              trace := tr; caught := None |}
  | Some (Throw error, st, tr) =>
      Some {| final := {| formData := formData st; isSubmitting := false;
                          submitStatus := Some StatusError |};
              trace := tr; caught := Some error |}
  end.

(** The number of store writes in a trace. *)
Definition attempts (tr : list event) : nat :=
  List.length (filter (fun e => match e with AddDoc _ _ => true | SetTimeout _ => false end) tr).

(** The timers of a trace, in order. *)
Definition delays (tr : list event) : list Z :=
  flat_map (fun e => match e with AddDoc _ _ => [] | SetTimeout ms => [ms] end) tr.

(** The two failure classes the writer does not retry. *)
Definition terminal (error : js_error) : bool :=
  codeIs error "permission-denied" || codeIs error "unauthenticated".

(** The record handed to every [addDoc] call of a run. *)
Definition contactDataOf (env : browser) (st : component) : contact_data :=
  {| cd_form := formData st;
     cd_visitorData := getVisitorData env;
     cd_submittedAt := submittedNow env |}.

(** A network lookup counts as failed when the [fetch] rejects, the status
    is not a success, or the body cannot be read. *)
Definition lookupFailed {A : Type} (r : completion (response A)) : bool :=
  match r with
  | Throw _ => true
  | Normal resp => negb (ok resp) || negb (fulfilled (json resp))
  end.

End WithHost.
End ContactForm.

(** ** The admin dashboard *)

Module AdminDashboard.

Section WithHost.
Context {H : Host}.

(** *** Stored documents

    What [doc.data()] returns.  The store is schema-loose, so every property
    may be missing ([None] is [undefined] or [null]). *)

Record stored_location := {
  latitude : option number;
  longitude : option number;
  accuracy : option number;
  city : option string;
  region : option string;
  country : option string;
  postal : option string;
  timezone : option string
}.

Record stored_device := {
  device_platform : option string;
  device_screenResolution : option string
}.

Record stored_visitor := {
  visitor_ip : option string;
  visitor_location : option stored_location;
  visitor_deviceDetails : option stored_device
}.

(** The shapes of [data.submittedAt] that [fetchSubmissions] tells apart. *)
Inductive stored_time :=
| Timestamp (ms : Z)            (* an object with a [toDate] method *)
| DateObject (t : option Z)     (* a [Date]; [None] is an invalid one *)
| TimeString (s : string)
| TimeNumber (n : Z)
| TimeOther.                    (* any other truthy value *)

Record doc_data := {
  data_name : option string;
  data_email : option string;
  data_message : option string;
  data_submittedAt : option stored_time;
  data_visitorData : option stored_visitor
}.

Record doc := { doc_id : string; data : doc_data }.

(** *** Rows of the table *)

Record submission := {
  id : string;
  name : string;
  email : string;
  message : string;
  submittedAt : Z;                 (* a valid [Date], by its time value *)
  ipAddress : string;
  location : string;
  coordinates : option string;
  googleMapsUrl : option string;
  deviceInfo : string;
  screenResolution : string
}.

(** [if (field) parts.push(field)]. *)
Definition pushIfTruthy (parts : list string) (field : option string) : list string :=
  match field with
  | Some s => if s =? EmptyString then parts else (parts ++ [s])%list
  | None => parts
  end.

Definition getLocationString (location : option stored_location) : string :=
  match location with
  | None => "N/A"
  | Some location =>
      let parts := [] in
      let parts := pushIfTruthy parts (city location) in
      let parts := pushIfTruthy parts (region location) in
      let parts := pushIfTruthy parts (country location) in
      if (0 <? List.length parts)%nat then Js.join ", " parts else "N/A"
  end.

(** The display rule in the specification's words: drop the missing members
    of city, region and country, join what is left with a comma and a space;
    N/A when the location is absent or nothing is left. *)
Definition present (field : option string) : list string :=
  match field with
  | Some s => if s =? EmptyString then [] else [s]
  | None => []
  end.

Definition displayRule (location : option stored_location) : string :=
  match location with
  | None => "N/A"
  | Some l =>
      match (present (city l) ++ present (region l) ++ present (country l))%list with
      | [] => "N/A"
      | parts => Js.join ", " parts
      end
  end.

Definition getCoordinates (location : option stored_location) : option string :=
  match location with
  | Some location =>
      match latitude location, longitude location with
      | Some lat, Some lng =>
          if numberToBoolean lat && numberToBoolean lng
          then Some (numberToString lat ++ ", " ++ numberToString lng)
          else None
      | _, _ => None
      end
  | None => None
  end.

Definition getGoogleMapsUrl (location : option stored_location) : option string :=
  match getCoordinates location with
  | Some coords =>
      if coords =? EmptyString then None
      else Some ("https://www.google.com/maps?q=" ++ coords)
  | None => None
  end.

(** [new Date(n)] is valid when [n] is within the time-value range. *)
Definition dateOfNumber (n : Z) : option Z :=
  if (Z.abs n <=? 8640000000000000)%Z then Some n else None.

(** The date normalisation at the head of the mapping callback; [now] is the
    time value of [new Date()]. *)
Definition normaliseSubmittedAt (raw : option stored_time) (now : Z) : Z :=
  let submittedAt :=
    match raw with
    | None => None
    | Some (Timestamp ms) => Some ms
    | Some (DateObject t) => t
    | Some (TimeString s) => if s =? EmptyString then None else dateParse s
    | Some (TimeNumber n) => if (n =? 0)%Z then None else dateOfNumber n
    | Some TimeOther => None
    end in
  match submittedAt with
  | Some t => t
  | None => now
  end.

(** The callback of [querySnapshot.docs.map]. *)
Definition toSubmission (now : Z) (d : doc) : submission :=
  let data := data d in
  let submittedAt := normaliseSubmittedAt (data_submittedAt data) now in
  let visitorData := data_visitorData data in
  let location :=
    match visitorData with
    | Some v => visitor_location v
    | None => None
    end in
  let deviceDetails :=
    match visitorData with
    | Some v => visitor_deviceDetails v
    | None => None
    end in
  let coords := getCoordinates location in
  let locationString := getLocationString location in
  {| id := doc_id d;
     name := Js.orElse (data_name data) EmptyString;
     email := Js.orElse (data_email data) EmptyString;
     message := Js.orElse (data_message data) EmptyString;
     submittedAt := submittedAt;
     ipAddress :=
       Js.orElse (match visitorData with Some v => visitor_ip v | None => None end)
                 EmptyString;
     location := locationString;
     coordinates := coords;
     googleMapsUrl := getGoogleMapsUrl location;
     deviceInfo :=
       Js.orElse (match deviceDetails with Some dd => device_platform dd | None => None end)
                 EmptyString;
     screenResolution :=
       Js.orElse (match deviceDetails with
                  | Some dd => device_screenResolution dd
                  | None => None
                  end) EmptyString |}.

(** *** Property access by column key *)

Inductive value :=
| VString (s : string)
| VDate (t : Z).

(** [submission[key]]; [None] is [undefined] or [null]. *)
Definition prop (s : submission) (key : string) : option value :=
  if key =? "id" then Some (VString (id s))
  else if key =? "name" then Some (VString (name s))
  else if key =? "email" then Some (VString (email s))
  else if key =? "message" then Some (VString (message s))
  else if key =? "submittedAt" then Some (VDate (submittedAt s))
  else if key =? "ipAddress" then Some (VString (ipAddress s))
  else if key =? "location" then Some (VString (location s))
  else if key =? "coordinates" then option_map VString (coordinates s)
  else if key =? "googleMapsUrl" then option_map VString (googleMapsUrl s)
  else if key =? "deviceInfo" then Some (VString (deviceInfo s))
  else if key =? "screenResolution" then Some (VString (screenResolution s))
  else None.

Definition toString (v : value) : string :=
  match v with
  | VString s => s
  | VDate t => dateToString t
  end.

(** [!x] is [negb (isTruthy x)]: objects are truthy, the empty string is not. *)
Definition isTruthy (o : option value) : bool :=
  match o with
  | Some (VString s) => negb (s =? EmptyString)
  | Some (VDate _) => true
  | None => false
  end.

(** *** View state *)

(** [visibleColumns]: an object used as an ordered map from column key to
    flag; [Object.entries] lists it in insertion order. *)
Definition columns := list (string * bool).

Definition initialColumns : columns :=
  [ ("name", true); ("email", true); ("message", true); ("submittedAt", true);
    ("ipAddress", true); ("location", true); ("deviceInfo", true);
    ("screenResolution", true) ].

Inductive direction := Asc | Desc.

Record sort_config := { key : string; direction_of : direction }.

Record state := {
  submissions : list submission;
  loading : bool;
  error : option string;
  currentPage : Z;
  selectedItems : list string;
  visibleColumns : columns;
  searchTerm : string;
  sortConfig : sort_config;
  isExporting : bool
}.

Definition initialState : state :=
  {| submissions := [];
     loading := true;
     error := None;
     currentPage := 1;
     selectedItems := [];
     visibleColumns := initialColumns;
     searchTerm := EmptyString;
     sortConfig := {| key := "submittedAt"; direction_of := Desc |};
     isExporting := false |}.

(** The state setters. *)
Definition setSubmissions (v : list submission) (st : state) : state :=
  {| submissions := v; loading := loading st; error := error st;
     currentPage := currentPage st; selectedItems := selectedItems st;
     visibleColumns := visibleColumns st; searchTerm := searchTerm st;
     sortConfig := sortConfig st; isExporting := isExporting st |}.

Definition setLoading (v : bool) (st : state) : state :=
  {| submissions := submissions st; loading := v; error := error st;
     currentPage := currentPage st; selectedItems := selectedItems st;
     visibleColumns := visibleColumns st; searchTerm := searchTerm st;
     sortConfig := sortConfig st; isExporting := isExporting st |}.

Definition setError (v : string) (st : state) : state :=
  {| submissions := submissions st; loading := loading st; error := Some v;
     currentPage := currentPage st; selectedItems := selectedItems st;
     visibleColumns := visibleColumns st; searchTerm := searchTerm st;
     sortConfig := sortConfig st; isExporting := isExporting st |}.

Definition setCurrentPage (f : Z -> Z) (st : state) : state :=
  {| submissions := submissions st; loading := loading st; error := error st;
     currentPage := f (currentPage st); selectedItems := selectedItems st;
     visibleColumns := visibleColumns st; searchTerm := searchTerm st;
     sortConfig := sortConfig st; isExporting := isExporting st |}.

Definition setSelectedItems (f : list string -> list string) (st : state) : state :=
  {| submissions := submissions st; loading := loading st; error := error st;
     currentPage := currentPage st; selectedItems := f (selectedItems st);
     visibleColumns := visibleColumns st; searchTerm := searchTerm st;
     sortConfig := sortConfig st; isExporting := isExporting st |}.

Definition setVisibleColumns (f : columns -> columns) (st : state) : state :=
  {| submissions := submissions st; loading := loading st; error := error st;
     currentPage := currentPage st; selectedItems := selectedItems st;
     visibleColumns := f (visibleColumns st); searchTerm := searchTerm st;
     sortConfig := sortConfig st; isExporting := isExporting st |}.

Definition setSearchTerm (v : string) (st : state) : state :=
  {| submissions := submissions st; loading := loading st; error := error st;
     currentPage := currentPage st; selectedItems := selectedItems st;
     visibleColumns := visibleColumns st; searchTerm := v;
     sortConfig := sortConfig st; isExporting := isExporting st |}.

Definition setSortConfig (f : sort_config -> sort_config) (st : state) : state :=
  {| submissions := submissions st; loading := loading st; error := error st;
     currentPage := currentPage st; selectedItems := selectedItems st;
     visibleColumns := visibleColumns st; searchTerm := searchTerm st;
     sortConfig := f (sortConfig st); isExporting := isExporting st |}.

Definition setIsExporting (v : bool) (st : state) : state :=
  {| submissions := submissions st; loading := loading st; error := error st;
     currentPage := currentPage st; selectedItems := selectedItems st;
     visibleColumns := visibleColumns st; searchTerm := searchTerm st;
     sortConfig := sortConfig st; isExporting := v |}.

(** *** Handlers that only touch the view state *)

(** [{...prev, [column]: !prev[column]}]: an existing key keeps its place; a
    new one is appended with [!undefined]. *)
Fixpoint toggleEntry (column : string) (prev : columns) : columns :=
  match prev with
  | [] => [(column, true)]
  | (k, visible) :: rest =>
      if k =? column then (k, negb visible) :: rest
      else (k, visible) :: toggleEntry column rest
  end.

Definition toggleColumn (column : string) (st : state) : state :=
  setVisibleColumns (toggleEntry column) st.

Definition isAsc (d : direction) : bool :=
  match d with
  | Asc => true
  | Desc => false
  end.


Definition handleSort (key' : string) (st : state) : state :=
  setSortConfig
    (fun prev =>
       {| key := key';
          direction_of :=
            if (key prev =? key') && isAsc (direction_of prev) then Desc else Asc |})
    st.

(** [arr.includes(id)] on an array of ids. *)
Definition arrayIncludes (arr : list string) (x : string) : bool :=
  existsb (fun y => y =? x) arr.

Definition handleSelectItem (id' : string) (st : state) : state :=
  setSelectedItems
    (fun prev =>
       if arrayIncludes prev id'
       then filter (fun itemId => negb (itemId =? id')) prev
       else (prev ++ [id'])%list)
    st.

Definition previousPage (st : state) : state :=
  setCurrentPage (fun prev => Z.max (prev - 1) 1) st.

(** *** Derived views *)

(** The predicate handed to [submissions.filter], in [handleExport] and in
    [filteredSubmissions] alike. *)
Definition matchesSearch (visibleColumns : columns) (searchTerm : string)
    (s : submission) : bool :=
  existsb
    (fun entry : string * bool =>
       let (key, visible) := entry in
       visible &&
       match prop s key with
       | Some v =>
           Js.includes (Js.toLowerCase (toString v)) (Js.toLowerCase searchTerm)
       | None => false
       end)
    visibleColumns.

Definition filterStep (st : state) : list submission :=
  filter (matchesSearch (visibleColumns st) (searchTerm st)) (submissions st).

(** The comparator handed to [sort]. *)
Definition compareSubmissions (cfg : sort_config) (a b : submission) : Z :=
  if negb (isTruthy (prop a (key cfg))) || negb (isTruthy (prop b (key cfg))) then 0%Z
  else
    match prop a (key cfg), prop b (key cfg) with
    | Some av, Some bv =>
        let aValue := Js.toLowerCase (toString av) in
        let bValue := Js.toLowerCase (toString bv) in
        if isAsc (direction_of cfg)
        then localeCompare aValue bValue
        else localeCompare bValue aValue
    | _, _ => 0%Z
    end.

(** [Array.prototype.sort] is required to be stable; it is modelled by the
    stable insertion sort: an element moves in front of a later one only when
    the comparator puts it strictly after. *)
Fixpoint insertSorted {A : Type} (cmp : A -> A -> Z) (x : A) (l : list A) : list A :=
  match l with
  | [] => [x]
  | y :: l' => if (cmp x y <=? 0)%Z then x :: y :: l' else y :: insertSorted cmp x l'
  end.

Fixpoint sortWith {A : Type} (cmp : A -> A -> Z) (l : list A) : list A :=
  match l with
  | [] => []
  | x :: l' => insertSorted cmp x (sortWith cmp l')
  end.

Definition filteredSubmissions (st : state) : list submission :=
  sortWith (compareSubmissions (sortConfig st)) (filterStep st).

Definition itemsPerPage : Z := 10.

(** [Math.ceil(n / d)] for integers [n] and [d > 0]. *)
Definition ceilDiv (n d : Z) : Z := (- ((- n) / d))%Z.

Definition totalPages (st : state) : Z :=
  ceilDiv (Z.of_nat (List.length (filteredSubmissions st))) itemsPerPage.

(** [arr.slice(start, stop)], negative indices counting from the end. *)
Definition slice {A : Type} (start stop : Z) (l : list A) : list A :=
  let len := Z.of_nat (List.length l) in
  let k := if (start <? 0)%Z then Z.max (len + start) 0 else Z.min start len in
  let final := if (stop <? 0)%Z then Z.max (len + stop) 0 else Z.min stop len in
  firstn (Z.to_nat (final - k)) (skipn (Z.to_nat k) l).

Definition paginatedSubmissions (st : state) : list submission :=
  slice ((currentPage st - 1) * itemsPerPage)%Z (currentPage st * itemsPerPage)%Z
        (filteredSubmissions st).

Definition nextPage (st : state) : state :=
  setCurrentPage (fun prev => Z.min (prev + 1) (totalPages st)) st.

Definition handleSelectAll (st : state) : state :=
  if (List.length (selectedItems st) =? List.length (filteredSubmissions st))%nat
  then setSelectedItems (fun _ => []) st
  else setSelectedItems (fun _ => map id (filteredSubmissions st)) st.

(** *** Loading, deleting, exporting *)

(** [fetchSubmissions]; [getDocs] is the outcome of the ordered query. *)
Definition fetchSubmissions (getDocs : completion (list doc)) (now : Z) (st : state) : state :=
  match getDocs with
  | Normal docs => setLoading false (setSubmissions (map (toSubmission now) docs) st)
  | Throw err =>
      setLoading false (setError ("Error fetching submissions: " ++ Exn.message err) st)
  end.

(** The first rejection among the promises handed to [Promise.all], taken in
    array order (which of several rejections wins is up to the scheduler;
    only its message depends on that). *)
Fixpoint firstRejection (ids : list string) (deleteDoc : string -> completion unit)
  : option js_error :=
  match ids with
  | [] => None
  | i :: rest =>
      match deleteDoc i with
      | Throw err => Some err
      | Normal _ => firstRejection rest deleteDoc
      end
  end.

(** [handleBulkDelete].  [confirmed] is the answer of [window.confirm];
    [deleteDoc] tells, per id, whether the store deletes the document or
    rejects; [db] is the contacts collection.  [selectedItems.map] issues
    every delete before [Promise.all] is awaited, so every delete that the
    store accepts takes effect, whatever the others do. *)
Definition handleBulkDelete (confirmed : bool) (deleteDoc : string -> completion unit)
    (db : list doc) (st : state) : state * list doc :=
  if negb confirmed then (st, db)
  else
    let db' :=
      filter (fun d => negb (arrayIncludes (selectedItems st) (doc_id d)
                             && fulfilled (deleteDoc (doc_id d)))) db in
    match firstRejection (selectedItems st) deleteDoc with
    | None =>
        let st := setSubmissions
                    (filter (fun s => negb (arrayIncludes (selectedItems st) (id s)))
                            (submissions st)) st in
        (setSelectedItems (fun _ => []) st, db')
    | Some err =>
        (setError ("Error deleting submissions: " ++ Exn.message err) st, db')
    end.

(** The file handed to the browser by [link.click()]. *)
Record download := { content : string; mime : string; filename : string }.

(** One cell: a string is quoted, anything else is left to [join], which
    prints [undefined] and [null] as nothing and a [Date] by [toString]. *)
Definition csvCell (v : option value) : string :=
  match v with
  | Some (VString s) => String Js.dquote (Js.doubleQuotes s ++ String Js.dquote EmptyString)
  | Some (VDate t) => dateToString t
  | None => EmptyString
  end.

Definition visibleKeys (visibleColumns : columns) : list string :=
  map fst (filter (fun entry : string * bool => snd entry) visibleColumns).

Definition csvRow (visibleColumns : columns) (s : submission) : string :=
  Js.join "," (map (fun key => csvCell (prop s key)) (visibleKeys visibleColumns)).

Definition csvContent (st : state) : string :=
  let filteredData := filterStep st in
  Js.join (String Js.newline EmptyString)
          (Js.join "," (visibleKeys (visibleColumns st))
           :: map (csvRow (visibleColumns st)) filteredData).

(** [handleExport]; [nowISO] is [new Date().toISOString()].  Nothing in the
    [try] block can throw on rows of the table, so the [catch] is dead and the
    [finally] resets the flag. *)
Definition handleExport (nowISO : string) (st : state) : state * download :=
  let st := setIsExporting true st in
  let file :=
    {| content := csvContent st;
       mime := "text/csv;charset=utf-8;";
       filename := "submissions_" ++ Js.beforeChar "T"%char nowISO ++ ".csv" |} in
  (setIsExporting false st, file).

End WithHost.
End AdminDashboard.

(** ** Reading the export back

    The inverse of the quoting done by [csvCell] on a string value: strip the
    enclosing quotes and halve the doubled ones.  Used to state that the
    quoting loses nothing. *)

Module Csv.



End Csv.

(** ** A concrete host and sample data

    Numbers are the integer-valued doubles, dates print as their time value,
    strings compare by code unit. *)

Module Samples.

Definition testHost : Host :=
  {| number := Z;
     numberToBoolean := fun n => negb (n =? 0)%Z;
     numberToString := Js.intToString;
     dateToString := fun t => "Date " ++ Js.intToString t;
     dateParse := fun s => if s =? "1970-01-01T00:00:00.000Z" then Some 0%Z else None;
     localeCompare := fun a b =>
       match String.compare a b with
       | Lt => (-1)%Z
       | Eq => 0%Z
       | Gt => 1%Z
       end |}.

Import ContactForm.

(** An integer as a number of [testHost]. *)
Definition int (z : Z) : @number testHost := z.

Definition fetched {A : Type} (body : A) : completion (response A) :=
  Normal {| ok := true; status := 200%Z; json := Normal body |}.

Definition colomboInfo : location_data :=
  {| ContactForm.city := Some "Colombo"; ContactForm.region := Some "Western Province";
     ContactForm.country := Some "LK"; ContactForm.postal := None;
     ContactForm.timezone := Some "Asia/Colombo" |}.

(** A browser in which the user refused the location prompt and both network
    lookups answered. *)
Definition refusedBrowser : @browser testHost :=
  {| userAgent := "Mozilla/5.0";
     screen_width := int 1920;
     screen_height := int 1080;
     language := "en-US";
     resolvedTimeZone := "Asia/Colombo";
     platform := "Linux x86_64";
     vendor := "Google Inc.";
     cookieEnabled := true;
     doNotTrack := None;
     onLine := true;
     geolocation :=
       Some (inr {| Exn.code := None; Exn.message := "User denied Geolocation" |});
     fetchIpify := fetched {| ip := Some "203.0.113.7" |};
     fetchIpinfo := fun _ => fetched colomboInfo;
     enrichedAt := "2025-05-01T10:00:00.000Z";
     submittedNow := "2025-05-01T10:00:01.000Z" |}.

(** The same browser when the IP-geo provider answers 403. *)
Definition geoDownBrowser : @browser testHost :=
  {| userAgent := userAgent refusedBrowser;
     screen_width := screen_width refusedBrowser;
     screen_height := screen_height refusedBrowser;
     language := language refusedBrowser;
     resolvedTimeZone := resolvedTimeZone refusedBrowser;
     platform := platform refusedBrowser;
     vendor := vendor refusedBrowser;
     cookieEnabled := cookieEnabled refusedBrowser;
     doNotTrack := doNotTrack refusedBrowser;
     onLine := onLine refusedBrowser;
     geolocation :=
       Some (inl {| coords_latitude := int 7; coords_longitude := int 80;
                    coords_accuracy := int 25 |});
     fetchIpify := fetchIpify refusedBrowser;
     fetchIpinfo := fun _ =>
       Normal {| ok := false; status := 403%Z;
                 json := Throw (newError "Unexpected token") |};
     enrichedAt := enrichedAt refusedBrowser;
     submittedNow := submittedNow refusedBrowser |}.

Definition filledForm : component :=
  {| formData := {| ContactForm.name := "Ada"; ContactForm.email := "ada@example.org";
                    ContactForm.message := "Hello" |};
     isSubmitting := false;
     submitStatus := None |}.

Definition unavailable : js_error :=
  {| Exn.code := Some "unavailable"; Exn.message := "The service is currently unavailable." |}.

Definition permissionDenied : js_error :=
  {| Exn.code := Some "permission-denied";
     Exn.message := "Missing or insufficient permissions." |}.

(** A store that rejects every write with a transient error. *)
Definition unavailableStore : store := fun _ => Throw unavailable.

(** A store that rejects every write for lack of permission. *)
Definition lockedStore : store := fun _ => Throw permissionDenied.

End Samples.

(** Stored documents and dashboard states to run the handlers on. *)

Module DashboardSamples.

Import AdminDashboard.

Definition int : Z -> @number Samples.testHost := Samples.int.

Definition noLocation : @stored_location Samples.testHost :=
  {| latitude := None; longitude := None; accuracy := None;
     city := None; region := None; country := None; postal := None; timezone := None |}.

(** A fix taken on the equator: latitude 0, longitude 37. *)
Definition equatorLocation : @stored_location Samples.testHost :=
  {| latitude := Some (int 0); longitude := Some (int 37); accuracy := Some (int 12);
     city := Some "Nanyuki"; region := Some "Laikipia"; country := Some "KE";
     postal := None; timezone := Some "Africa/Nairobi" |}.

Definition colomboLocation : @stored_location Samples.testHost :=
  {| latitude := Some (int 7); longitude := Some (int 80); accuracy := Some (int 25);
     city := Some "Colombo"; region := Some "Western Province"; country := Some "LK";
     postal := None; timezone := Some "Asia/Colombo" |}.

Definition cityOnly : @stored_location Samples.testHost :=
  {| latitude := None; longitude := None; accuracy := None;
     city := Some "Kandy"; region := Some EmptyString; country := None;
     postal := None; timezone := None |}.

Definition storedDoc (docId name' : string)
    (location' : option (@stored_location Samples.testHost)) : @doc Samples.testHost :=
  {| doc_id := docId;
     data :=
       {| data_name := Some name';
          data_email := Some "visitor@example.org";
          data_message := Some "Hello";
          data_submittedAt := Some (Timestamp 1746093600000);
          data_visitorData :=
            Some {| visitor_ip := Some "203.0.113.7";
                    visitor_location := location';
                    visitor_deviceDetails :=
                      Some {| device_platform := Some "Linux x86_64";
                              device_screenResolution := Some "1920x1080" |} |} |} |}.

(** A document that holds nothing but its id. *)
Definition blankDoc : @doc Samples.testHost :=
  {| doc_id := "blank";
     data := {| data_name := None; data_email := None; data_message := None;
                data_submittedAt := None; data_visitorData := None |} |}.

Definition docA := storedDoc "A" "Alice" (Some colomboLocation).
Definition docB := storedDoc "B" "Bob" (Some equatorLocation).

(** The name of the export example: Jane, a quoted nickname, Doe, a comma. *)
Definition janeName : string :=
  "Jane " ++ String Js.dquote ("JJ" ++ String Js.dquote " Doe, Esq.").


Definition docJane := storedDoc "J" janeName None.

Definition now : Z := 1746100000000.

(** The dashboard after [fetchSubmissions] returned the given documents. *)
Definition loaded (docs : list (@doc Samples.testHost)) : state :=
  fetchSubmissions (Normal docs) now initialState.

(** Twenty-one documents, named Visitor 1 to Visitor 21. *)
Definition manyDocs : list (@doc Samples.testHost) :=
  map (fun n => storedDoc ("d" ++ Js.intToString (Z.of_nat n))
                          ("Visitor " ++ Js.intToString (Z.of_nat n)) None)
      (seq 1 21).

(** Every column switched off through the column menu. *)
Definition allHidden (st : state) : state :=
  fold_left (fun st' column => toggleColumn column st') (map fst initialColumns) st.

(** Both rows ticked. *)
Definition bothSelected : state :=
  handleSelectItem "B" (handleSelectItem "A" (loaded [docA; docB])).

(** A store that refuses to delete document B. *)
Definition refusesB (docId : string) : completion unit :=
  if docId =? "B" then Throw Samples.permissionDenied else Normal tt.

End DashboardSamples.

(** ** The location prompt

    The [LocationAccess] component of the home page.  The fade-in flag
    ([isAnimating], a 500 ms timer) is presentation only and is left out. *)

Module LocationAccess.

Inductive location_status := Checking | NotSupported | Granted | Denied | CheckFailed.

(** [permission.state]; the component treats everything that is neither
    granted nor prompt as denied. *)
Inductive permission_state := PermissionGranted | PermissionPrompt | PermissionDenied.

Record component := { showPopup : bool; locationStatus : location_status }.

(** The component after a handler ran, and the routes it navigated to. *)
Record outcome := { after : component; navigations : list string }.

Definition initial : component := {| showPopup := false; locationStatus := Checking |}.

(** [checkLocationAccess]: [geolocation] tells whether [navigator.geolocation]
    exists, [query] is the outcome of [navigator.permissions.query]. *)
Definition checkLocationAccess (geolocation : bool) (query : completion permission_state)
    (st : component) : outcome :=
  if negb geolocation then
    {| after := {| showPopup := showPopup st; locationStatus := NotSupported |};
       navigations := [] |}
  else
    match query with
    | Normal PermissionGranted =>
        {| after := {| showPopup := showPopup st; locationStatus := Granted |};
           navigations := ["/"] |}
    | Normal PermissionPrompt =>
        {| after := {| showPopup := true; locationStatus := locationStatus st |};
           navigations := [] |}
    | Normal PermissionDenied =>
        {| after := {| showPopup := true; locationStatus := Denied |};
           navigations := [] |}
    | Throw error =>
        {| after := {| showPopup := showPopup st; locationStatus := CheckFailed |};
           navigations := [] |}
    end.

(** [requestLocationAccess]: [position] is the callback that
    [getCurrentPosition] invokes. *)
Definition requestLocationAccess (position : completion unit) (st : component) : outcome :=
  match position with
  | Normal _ =>
      {| after := {| showPopup := false; locationStatus := Granted |};
         navigations := ["/"] |}
  | Throw error =>
      {| after := {| showPopup := showPopup st; locationStatus := Denied |};
         navigations := [] |}
  end.

(** The component renders the popup exactly when [showPopup] holds, and the
    refusal notice inside it when the status is denied. *)
Definition rendered (st : component) : bool := showPopup st.

Definition showsRefusal (st : component) : bool :=
  showPopup st &&
  match locationStatus st with
  | Denied => true
  | _ => false
  end.

End LocationAccess.

(** ** The statistics of the dashboard

    The effect that recomputes [stats] whenever [submissions] changes.  The
    local calendar ([new Date(y, m, d)]) comes from the browser. *)

Module Stats.

Import AdminDashboard.

Record calendar := {
  (** local midnight of the day of an instant *)
  startOfDay : Z -> Z;
  (** local midnight of the first day of the month of an instant *)
  startOfMonth : Z -> Z
}.

Record stats := { total : nat; today : nat; thisWeek : nat; thisMonth : nat }.

(** [submissions.filter(s => new Date(s.submittedAt) >= t).length]. *)
Definition countSince (t : Z) (submissions : list submission) : nat :=
  List.length (filter (fun s => (t <=? submittedAt s)%Z) submissions).

Definition computeStats (cal : calendar) (now : Z) (submissions : list submission) : stats :=
  let today := startOfDay cal now in
  let weekAgo := (today - 7 * 24 * 60 * 60 * 1000)%Z in
  let monthAgo := startOfMonth cal today in
  {| total := List.length submissions;
     today := countSince today submissions;
     thisWeek := countSince weekAgo submissions;
     thisMonth := countSince monthAgo submissions |}.

End Stats.

(** ** Reading an exported line back

    A reader for a line whose cells are all quoted: cells are separated by
    commas, a doubled quote inside a cell stands for one quote. *)

Module CsvRow.

(** Put a character in front of the cell being read. *)
Definition pushChar (c : ascii) (r : option (list string)) : option (list string) :=
  match r with
  | Some (cell :: rest) => Some (String c cell :: rest)
  | _ => None
  end.

(** The reader, positioned inside a cell (after its opening quote). *)
Fixpoint inside (s : string) : option (list string) :=
  match s with
  | EmptyString => None
  | String c s' =>
      if Ascii.eqb c Js.dquote then
        match s' with
        | EmptyString => Some [EmptyString]
        | String c' s'' =>
            if Ascii.eqb c' Js.dquote then pushChar Js.dquote (inside s'')
            else if Ascii.eqb c' ","%char then
              match s'' with
              | String q s3 =>
                  if Ascii.eqb q Js.dquote
                  then option_map (cons EmptyString) (inside s3)
                  else None
              | EmptyString => None
              end
            else None
        end
      else pushChar c (inside s')
  end.

Definition parse (line : string) : option (list string) :=
  match line with
  | String c s => if Ascii.eqb c Js.dquote then inside s else None
  | EmptyString => None
  end.

End CsvRow.

(** ** The schedule of the writer

    What a run that makes [m] attempts shows, in the specification's words:
    attempt 1 at once, and before attempt [k + 1] a timer of [2 ^ k] seconds;
    every attempt writes the same record. *)

Module WriterSpec.

Section WithHost.
Context {H : Host}.
Import ContactForm.

Definition scheduled (contactData : contact_data) (k : nat) : list event :=
  match k with
  | O => [AddDoc 1 contactData]
  | S _ => [SetTimeout (2 ^ Z.of_nat k * 1000); AddDoc (k + 1) contactData]
  end.

Definition backoffTrace (contactData : contact_data) (m : nat) : list event :=
  flat_map (scheduled contactData) (seq 0 m).

(** The form as [handleSubmit] resets it. *)
Definition emptyForm : form_data :=
  {| name := EmptyString; email := EmptyString; message := EmptyString |}.

End WithHost.
End WriterSpec.

(** ** What the store keeps

    [addDoc] stores the record it is given as it is, and [doc.data()] hands
    the same properties back; this is that identity, from the shape the form
    writes to the shape the dashboard reads. *)

Module Firestore.

Section WithHost.
Context {H : Host}.

Definition storedVisitor (v : ContactForm.visitor_data) : AdminDashboard.stored_visitor :=
  let l := ContactForm.vd_location v in
  {| AdminDashboard.visitor_ip := ContactForm.vd_ip v;
     AdminDashboard.visitor_location :=
       Some {| AdminDashboard.latitude := ContactForm.loc_latitude l;
               AdminDashboard.longitude := ContactForm.loc_longitude l;
               AdminDashboard.accuracy := ContactForm.loc_accuracy l;
               AdminDashboard.city := Some (ContactForm.loc_city l);
               AdminDashboard.region := Some (ContactForm.loc_region l);
               AdminDashboard.country := Some (ContactForm.loc_country l);
               AdminDashboard.postal := Some (ContactForm.loc_postal l);
               AdminDashboard.timezone := Some (ContactForm.loc_timezone l) |};
     AdminDashboard.visitor_deviceDetails :=
       Some {| AdminDashboard.device_platform :=
                 Some (ContactForm.dd_platform (ContactForm.vd_deviceDetails v));
               AdminDashboard.device_screenResolution :=
                 Some (ContactForm.dd_screenResolution (ContactForm.vd_deviceDetails v)) |} |}.

Definition stored (docId : string) (contactData : ContactForm.contact_data)
  : AdminDashboard.doc :=
  {| AdminDashboard.doc_id := docId;
     AdminDashboard.data :=
       {| AdminDashboard.data_name :=
            Some (ContactForm.name (ContactForm.cd_form contactData));
          AdminDashboard.data_email :=
            Some (ContactForm.email (ContactForm.cd_form contactData));
          AdminDashboard.data_message :=
            Some (ContactForm.message (ContactForm.cd_form contactData));
          AdminDashboard.data_submittedAt :=
            Some (AdminDashboard.TimeString (ContactForm.cd_submittedAt contactData));
          AdminDashboard.data_visitorData :=
            option_map storedVisitor (ContactForm.cd_visitorData contactData) |} |}.

End WithHost.
End Firestore.

(** ** A session at the dashboard

    Which handler the rendered page lets the operator trigger, and when: the
    documents are fetched once, on mount; the table, its menu and its buttons
    exist only once loading is over and no error is set; a disabled button
    does nothing; the delete bar exists only while something is selected. *)

Module Session.

Section WithHost.
Context {H : Host}.
Import AdminDashboard.

Definition interactive (st : state) : Prop :=
  loading st = false /\ error st = None.

Inductive step : state -> state -> Prop :=
| step_fetched : forall st docs now,
    loading st = true ->
    NoDup (map doc_id docs) ->
    step st (fetchSubmissions (Normal docs) now st)
| step_fetch_failed : forall st err now,
    loading st = true ->
    step st (fetchSubmissions (Throw err) now st)
| step_search : forall st term,
    interactive st -> step st (setSearchTerm term st)
| step_toggle : forall st column,
    interactive st -> In column (map fst (visibleColumns st)) ->
    step st (toggleColumn column st)
| step_sort : forall st k,
    interactive st -> In (k, true) (visibleColumns st) ->
    step st (handleSort k st)
| step_select_item : forall st s,
    interactive st -> In s (paginatedSubmissions st) ->
    step st (handleSelectItem (id s) st)
| step_select_all : forall st,
    interactive st -> step st (handleSelectAll st)
| step_previous : forall st,
    interactive st -> currentPage st <> 1%Z -> step st (previousPage st)
| step_next : forall st,
    interactive st -> currentPage st <> totalPages st -> step st (nextPage st)
| step_export : forall st nowISO,
    interactive st -> isExporting st = false ->
    step st (fst (handleExport nowISO st))
| step_delete : forall st confirmed deleteDoc db,
    interactive st -> selectedItems st <> [] ->
    step st (fst (handleBulkDelete confirmed deleteDoc db st)).

Inductive reachable : state -> Prop :=
| reachable_initial : reachable initialState
| reachable_step : forall st st', reachable st -> step st st' -> reachable st'.

(** What holds of the view state throughout a session. *)
Definition invariant (st : state) : Prop :=
  map fst (visibleColumns st) = map fst initialColumns /\
  (0 <= currentPage st)%Z /\
  In (key (sortConfig st)) (map fst initialColumns) /\
  NoDup (map id (submissions st)) /\
  NoDup (selectedItems st) /\
  incl (selectedItems st) (map id (submissions st)) /\
  isExporting st = false /\
  (loading st = true -> selectedItems st = []).

End WithHost.
End Session.

(** Sample data for the statistics and the session. *)

Module CoverageSamples.

(** A calendar for UTC, good for the instants of May 2025. *)
Definition utcMay2025 : Stats.calendar :=
  {| Stats.startOfDay := fun t => (t - t mod 86400000)%Z;
     Stats.startOfMonth := fun _ => 1746057600000%Z |}.

(** The noon of the sample day. *)
Definition noon : Z := 1746100800000.

Definition rowAt (docId : string) (t : Z) : AdminDashboard.submission :=
  AdminDashboard.toSubmission (H := Samples.testHost) DashboardSamples.now
    {| AdminDashboard.doc_id := docId;
       AdminDashboard.data :=
         {| AdminDashboard.data_name := Some "Ada";
            AdminDashboard.data_email := None;
            AdminDashboard.data_message := None;
            AdminDashboard.data_submittedAt := Some (AdminDashboard.Timestamp t);
            AdminDashboard.data_visitorData := None |} |}.

(** A browser whose user granted the location prompt, at a place off the
    equator, with both lookups answering. *)
Definition grantedBrowser : @ContactForm.browser Samples.testHost :=
  {| ContactForm.userAgent := ContactForm.userAgent Samples.refusedBrowser;
     ContactForm.screen_width := ContactForm.screen_width Samples.refusedBrowser;
     ContactForm.screen_height := ContactForm.screen_height Samples.refusedBrowser;
     ContactForm.language := ContactForm.language Samples.refusedBrowser;
     ContactForm.resolvedTimeZone := ContactForm.resolvedTimeZone Samples.refusedBrowser;
     ContactForm.platform := ContactForm.platform Samples.refusedBrowser;
     ContactForm.vendor := ContactForm.vendor Samples.refusedBrowser;
     ContactForm.cookieEnabled := ContactForm.cookieEnabled Samples.refusedBrowser;
     ContactForm.doNotTrack := ContactForm.doNotTrack Samples.refusedBrowser;
     ContactForm.onLine := ContactForm.onLine Samples.refusedBrowser;
     ContactForm.geolocation :=
       Some (inl {| ContactForm.coords_latitude := Samples.int 7;
                    ContactForm.coords_longitude := Samples.int 80;
                    ContactForm.coords_accuracy := Samples.int 25 |});
     ContactForm.fetchIpify := ContactForm.fetchIpify Samples.refusedBrowser;
     ContactForm.fetchIpinfo := ContactForm.fetchIpinfo Samples.refusedBrowser;
     ContactForm.enrichedAt := ContactForm.enrichedAt Samples.refusedBrowser;
     ContactForm.submittedNow := "1970-01-01T00:00:00.000Z" |}.

(** The column menu with the date column switched off. *)
Definition stringColumns : AdminDashboard.columns :=
  AdminDashboard.toggleEntry "submittedAt" AdminDashboard.initialColumns.

(** Two documents without a name, loaded and sorted by name. *)
Definition namelessByName : AdminDashboard.state :=
  AdminDashboard.handleSort "name"
    (DashboardSamples.loaded
       [DashboardSamples.blankDoc;
        {| AdminDashboard.doc_id := "blank2";
           AdminDashboard.data := AdminDashboard.data DashboardSamples.blankDoc |}]).

(** Two documents loaded, nothing else done. *)
Definition twoLoaded : AdminDashboard.state :=
  DashboardSamples.loaded [DashboardSamples.docA; DashboardSamples.docB].

(** A store that rejects the first write with a transient error and accepts
    the second. *)
Definition flakyStore : ContactForm.store :=
  fun k => match k with
           | O => Throw Samples.unavailable
           | S _ => Normal "doc-1"
           end.

End CoverageSamples.

(** ** The contact form: results *)

Section ContactFormResults.
Context {H : Host}.
Import ContactForm.

Lemma retryLoop_total :
  forall fuel addDoc contactData retryCount lastError st tr,
    (maxRetries - retryCount <= fuel)%nat -> (0 < fuel)%nat ->
    exists r, retryLoop fuel addDoc contactData retryCount lastError st tr = Some r.
Proof.
  induction fuel as [|fuel IH]; intros addDoc contactData retryCount lastError st tr Hle Hpos.
  - lia.
  - cbn -[maxRetries Nat.ltb Nat.eqb Z.pow Z.mul].
    destruct (retryCount <? maxRetries)%nat eqn:Hlt; [|eauto].
    apply Nat.ltb_lt in Hlt.
    destruct (addDoc retryCount) as [docRef|error]; [eauto|].
    destruct (codeIs error "permission-denied"); [eauto|].
    destruct (codeIs error "unauthenticated"); [eauto|].
    destruct (S retryCount =? maxRetries)%nat eqn:Hmax; [eauto|].
    apply Nat.eqb_neq in Hmax.
    apply IH; lia.
Qed.

(** [handleSubmit] always completes. *)
Lemma handleSubmit_total :
  forall env addDoc st, exists r, handleSubmit env addDoc st = Some r.
Proof.
  intros env addDoc st. unfold handleSubmit.
  match goal with
  | |- context [retryLoop ?f ?a ?c ?n ?l ?s ?t] =>
      destruct (retryLoop_total f a c n l s t) as [[[c' st'] tr'] Hr];
        [unfold maxRetries; lia | unfold maxRetries; lia | rewrite Hr]
  end.
  destruct c'; eauto.
Qed.

Lemma terminal_false :
  forall e, terminal e = false ->
    codeIs e "permission-denied" = false /\ codeIs e "unauthenticated" = false.
Proof.
  intros e He. unfold terminal in He. now apply orb_false_iff in He.
Qed.

(** One iteration of the loop whose write is rejected with a transient error
    before the budget is spent: a timer of [2 ^ retryCount] seconds, then the
    next iteration. *)
Lemma retryLoop_transient :
  forall fuel addDoc contactData retryCount lastError st tr error,
    (S retryCount < maxRetries)%nat ->
    addDoc retryCount = Throw error ->
    terminal error = false ->
    retryLoop (S fuel) addDoc contactData retryCount lastError st tr =
    retryLoop fuel addDoc contactData (S retryCount) (Some error) st
      (tr ++ [AddDoc (retryCount + 1) contactData;
              SetTimeout (2 ^ Z.of_nat (S retryCount) * 1000)])%list.
Proof.
  intros fuel addDoc contactData retryCount lastError st tr error Hlt Hadd Hterm.
  apply terminal_false in Hterm. destruct Hterm as [Hp Hu].
  cbn -[maxRetries Nat.ltb Nat.eqb Z.pow Z.mul Z.of_nat].
  replace (retryCount <? maxRetries)%nat with true
    by (symmetry; apply Nat.ltb_lt; lia).
  rewrite Hadd, Hp, Hu.
  replace (S retryCount =? maxRetries)%nat with false
    by (symmetry; apply Nat.eqb_neq; lia).
  now rewrite <- app_assoc.
Qed.

(** The iteration whose write is rejected with a terminal error throws the
    replacement error at once. *)
Lemma retryLoop_terminal :
  forall fuel addDoc contactData retryCount lastError st tr error,
    (retryCount < maxRetries)%nat ->
    addDoc retryCount = Throw error ->
    terminal error = true ->
    exists replacement,
      retryLoop (S fuel) addDoc contactData retryCount lastError st tr =
      Some (Throw replacement, st, (tr ++ [AddDoc (retryCount + 1) contactData])%list) /\
      Exn.code replacement = None /\
      ((codeIs error "permission-denied" = true /\
        Exn.message replacement =
          "Permission denied. Please check your Firebase security rules.") \/
       (codeIs error "permission-denied" = false /\
        codeIs error "unauthenticated" = true /\
        Exn.message replacement =
          "Authentication required. Please check your Firebase configuration.")).
Proof.
  intros fuel addDoc contactData retryCount lastError st tr error Hlt Hadd Hterm.
  cbn -[maxRetries Nat.ltb Nat.eqb Z.pow Z.mul Z.of_nat].
  replace (retryCount <? maxRetries)%nat with true
    by (symmetry; apply Nat.ltb_lt; lia).
  rewrite Hadd. unfold terminal in Hterm.
  destruct (codeIs error "permission-denied") eqn:Hp.
  - eexists; split; [reflexivity|]. split; [reflexivity|]. left. now split.
  - simpl in Hterm. rewrite Hterm.
    eexists; split; [reflexivity|]. split; [reflexivity|]. right. now repeat split.
Qed.

(** C1 (as amended): when the three writes of a run are all rejected with
    transient errors, [handleSubmit] makes exactly three attempts, waits
    [2^k] seconds before attempt [k+1] (2 s before the second, 4 s before the
    third, nothing after the last), and the error of the third attempt is
    the one that reaches the outer handler, which reports the error status. *)
Theorem writer_transient_exhaustion :
  forall (env : browser) (addDoc : store) (st : component) (e1 e2 e3 : js_error),
    addDoc 0%nat = Throw e1 -> terminal e1 = false ->
    addDoc 1%nat = Throw e2 -> terminal e2 = false ->
    addDoc 2%nat = Throw e3 -> terminal e3 = false ->
    exists r,
      handleSubmit env addDoc st = Some r /\
      trace r = [AddDoc 1 (contactDataOf env st); SetTimeout (2 ^ 1 * 1000);
                 AddDoc 2 (contactDataOf env st); SetTimeout (2 ^ 2 * 1000);
                 AddDoc 3 (contactDataOf env st)] /\
      attempts (trace r) = 3%nat /\
      delays (trace r) = [2000; 4000]%Z /\
      caught r = Some e3 /\
      submitStatus (final r) = Some StatusError /\
      isSubmitting (final r) = false /\
      formData (final r) = formData st.
Proof.
  intros env addDoc st e1 e2 e3 H1 T1 H2 T2 H3 T3.
  unfold handleSubmit.
  change maxRetries with 3%nat at 1.
  cbn [formData]. fold (contactDataOf env st).
  rewrite (retryLoop_transient _ _ _ 0%nat _ _ _ e1 ltac:(unfold maxRetries; lia) H1 T1).
  rewrite (retryLoop_transient _ _ _ 1%nat _ _ _ e2 ltac:(unfold maxRetries; lia) H2 T2).
  apply terminal_false in T3. destruct T3 as [Hp Hu].
  cbn -[Z.pow Z.mul]. rewrite H3, Hp, Hu.
  eexists. split; [reflexivity|]. cbn. repeat split; reflexivity.
Qed.

(** C2: a write rejected with permission-denied or unauthenticated ends the
    run at that attempt: after [n] transient failures the run has made
    exactly [n + 1] attempts, its last event is that write (no timer and no
    write follows), and the error that reaches the outer handler is the
    fixed replacement for that class, a fresh error distinct from the store's
    own and different for the two classes; the error status is reported.  On
    the first attempt this is a single write and nothing else. *)
Theorem writer_terminal_no_retry :
  forall (env : browser) (addDoc : store) (st : component) (n : nat) (e : js_error),
    (n < maxRetries)%nat ->
    (forall k, (k < n)%nat -> exists ek, addDoc k = Throw ek /\ terminal ek = false) ->
    addDoc n = Throw e -> terminal e = true ->
    exists r replacement,
      handleSubmit env addDoc st = Some r /\
      attempts (trace r) = S n /\
      last (trace r) (SetTimeout 0) = AddDoc (S n) (contactDataOf env st) /\
      List.length (delays (trace r)) = n /\
      (n = 0%nat -> trace r = [AddDoc 1 (contactDataOf env st)]) /\
      caught r = Some replacement /\
      replacement <> e /\
      ((codeIs e "permission-denied" = true /\
        replacement =
          newError "Permission denied. Please check your Firebase security rules.") \/
       (codeIs e "permission-denied" = false /\
        codeIs e "unauthenticated" = true /\
        replacement =
          newError "Authentication required. Please check your Firebase configuration.")) /\
      submitStatus (final r) = Some StatusError /\
      isSubmitting (final r) = false /\
      formData (final r) = formData st.
Proof.
  intros env addDoc st n e Hn Hprev Hadd Hterm.
  assert (Hne : forall replacement, Exn.code replacement = None -> replacement <> e).
  { intros replacement Hc Heq. subst replacement.
    unfold terminal, codeIs in Hterm. rewrite Hc in Hterm. discriminate. }
  assert (Hshape : forall replacement, Exn.code replacement = None ->
            forall m, Exn.message replacement = m -> replacement = newError m).
  { intros [c m'] Hc m Hm. simpl in *. now subst. }
  unfold handleSubmit. change maxRetries with 3%nat at 1.
  cbn [formData]. fold (contactDataOf env st).
  unfold maxRetries in Hn.
  destruct n as [|[|[|n]]]; [| | |lia].
  - destruct (retryLoop_terminal 2 addDoc (contactDataOf env st) 0%nat None
                {| formData := formData st; isSubmitting := true; submitStatus := None |}
                [] e ltac:(unfold maxRetries; lia) Hadd Hterm) as (rep & Hrun & Hcode & Hmsg).
    rewrite Hrun.
    exists {| final := {| formData := formData st; isSubmitting := false;
                          submitStatus := Some StatusError |};
              trace := [AddDoc 1 (contactDataOf env st)]; caught := Some rep |}, rep.
    cbn. repeat split; auto.
    destruct Hmsg as [[Hp Hm]|[Hp [Hu Hm]]]; [left|right]; repeat split; auto.
  - destruct (Hprev 0%nat ltac:(lia)) as (e0 & H0 & T0).
    rewrite (retryLoop_transient _ _ _ 0%nat _ _ _ e0 ltac:(unfold maxRetries; lia) H0 T0).
    match goal with
    | |- context [retryLoop 2 addDoc ?c 1%nat ?l ?s ?t] =>
        destruct (retryLoop_terminal 1 addDoc c 1%nat l s t e
                    ltac:(unfold maxRetries; lia) Hadd Hterm) as (rep & Hrun & Hcode & Hmsg)
    end.
    rewrite Hrun.
    eexists; exists rep. split; [reflexivity|].
    cbn. repeat split; auto; try lia.
    destruct Hmsg as [[Hp Hm]|[Hp [Hu Hm]]]; [left|right]; repeat split; auto.
  - destruct (Hprev 0%nat ltac:(lia)) as (e0 & H0 & T0).
    destruct (Hprev 1%nat ltac:(lia)) as (e1 & H1 & T1).
    rewrite (retryLoop_transient _ _ _ 0%nat _ _ _ e0 ltac:(unfold maxRetries; lia) H0 T0).
    rewrite (retryLoop_transient _ _ _ 1%nat _ _ _ e1 ltac:(unfold maxRetries; lia) H1 T1).
    match goal with
    | |- context [retryLoop 1 addDoc ?c 2%nat ?l ?s ?t] =>
        destruct (retryLoop_terminal 0 addDoc c 2%nat l s t e
                    ltac:(unfold maxRetries; lia) Hadd Hterm) as (rep & Hrun & Hcode & Hmsg)
    end.
    rewrite Hrun.
    eexists; exists rep. split; [reflexivity|].
    cbn. repeat split; auto; try lia.
    destruct Hmsg as [[Hp Hm]|[Hp [Hu Hm]]]; [left|right]; repeat split; auto.
Qed.

(** C4: when the IP-geo lookup keyed on the obtained address fails,
    [getVisitorData] returns [null], never a partly filled record; when only
    the device geolocation fails, the three coordinates are [null] and the
    rest of the record is filled from the two lookups and the browser. *)
Theorem enrichment_failure_asymmetry :
  forall env : browser,
    ((forall ipResponse ipData,
        fetchIpify env = Normal ipResponse -> json ipResponse = Normal ipData ->
        lookupFailed (fetchIpinfo env (ip ipData)) = true) ->
     getVisitorData env = None) /\
    (forall ipResponse ipData locationResponse locationData,
       fetchIpify env = Normal ipResponse -> ok ipResponse = true ->
       json ipResponse = Normal ipData ->
       fetchIpinfo env (ip ipData) = Normal locationResponse ->
       ok locationResponse = true ->
       json locationResponse = Normal locationData ->
       fulfilled (getDeviceLocation env) = false ->
       getVisitorData env =
       Some {| vd_ip := ip ipData;
               vd_location :=
                 {| loc_latitude := None;
                    loc_longitude := None;
                    loc_accuracy := None;
                    loc_city := Js.orElse (city locationData) "Unknown";
                    loc_region := Js.orElse (region locationData) "Unknown";
                    loc_country := Js.orElse (country locationData) "Unknown";
                    loc_postal := Js.orElse (postal locationData) "Unknown";
                    loc_timezone := Js.orElse (timezone locationData) "Unknown" |};
               vd_deviceDetails :=
                 {| dd_userAgent := userAgent env;
                    dd_screenResolution :=
                      numberToString (screen_width env) ++ "x"
                      ++ numberToString (screen_height env);
                    dd_language := language env;
                    dd_timezone := resolvedTimeZone env;
                    dd_platform := platform env;
                    dd_vendor := vendor env;
                    dd_cookiesEnabled := cookieEnabled env;
                    dd_doNotTrack := doNotTrack env;
                    dd_online := onLine env |};
               vd_timestamp := enrichedAt env |}).
Proof.
  intros env. split.
  - intros Hfail. unfold getVisitorData.
    destruct (fetchIpify env) as [ipResponse|e] eqn:Hip; [|reflexivity].
    cbn [bind catch]. destruct (ok ipResponse); [|reflexivity].
    cbn [negb]. destruct (json ipResponse) as [ipData|e] eqn:Hjson; [|reflexivity].
    cbn [bind]. specialize (Hfail ipResponse ipData eq_refl Hjson).
    unfold lookupFailed in Hfail.
    destruct (fetchIpinfo env (ip ipData)) as [locationResponse|e]; [|reflexivity].
    cbn [bind]. destruct (ok locationResponse); [|reflexivity].
    cbn [negb orb] in Hfail |- *.
    destruct (json locationResponse); [discriminate|reflexivity].
  - intros ipResponse ipData locationResponse locationData
           Hip Hok Hjson Hgeo Hok' Hjson' Hdev.
    unfold getVisitorData.
    rewrite Hip. cbn [bind]. rewrite Hok. cbn [negb]. rewrite Hjson. cbn [bind].
    rewrite Hgeo. cbn [bind]. rewrite Hok'. cbn [negb]. rewrite Hjson'. cbn [bind catch].
    destruct (getDeviceLocation env); [discriminate|reflexivity].
Qed.

End ContactFormResults.

(** *** The writer and the enrichment on the sample browser *)

Lemma writer_transient_exhaustion_witness :
  exists r,
    ContactForm.handleSubmit Samples.refusedBrowser Samples.unavailableStore
                             Samples.filledForm = Some r /\
    ContactForm.attempts (ContactForm.trace r) = 3%nat /\
    ContactForm.delays (ContactForm.trace r) = [2000; 4000]%Z /\
    ContactForm.caught r = Some Samples.unavailable.
Proof.
  destruct (@writer_transient_exhaustion Samples.testHost Samples.refusedBrowser
              Samples.unavailableStore Samples.filledForm
              Samples.unavailable Samples.unavailable Samples.unavailable)
    as (r & Hrun & _ & Hn & Hd & Hc & _); try reflexivity.
  exists r. repeat split; assumption.
Defined.

(** The claim's list of delays, 1 s / 2 s / 4 s, is not what a run with three
    transient failures shows: there are two timers, of 2 s and 4 s. *)
Lemma writer_delays_not_1_2_4 :
  exists r,
    ContactForm.handleSubmit Samples.refusedBrowser Samples.unavailableStore
                             Samples.filledForm = Some r /\
    ContactForm.attempts (ContactForm.trace r) = 3%nat /\
    ContactForm.delays (ContactForm.trace r) = [2000; 4000]%Z /\
    ContactForm.delays (ContactForm.trace r) <> [1000; 2000; 4000]%Z.
Proof.
  eexists. split; [vm_compute; reflexivity|].
  split; [reflexivity|]. split; [reflexivity|]. discriminate.
Qed.

Lemma writer_terminal_no_retry_witness :
  exists r,
    ContactForm.handleSubmit Samples.refusedBrowser Samples.lockedStore
                             Samples.filledForm = Some r /\
    ContactForm.attempts (ContactForm.trace r) = 1%nat /\
    ContactForm.delays (ContactForm.trace r) = [] /\
    ContactForm.caught r =
      Some (newError "Permission denied. Please check your Firebase security rules.").
Proof.
  destruct (@writer_terminal_no_retry Samples.testHost Samples.refusedBrowser
              Samples.lockedStore Samples.filledForm 0%nat Samples.permissionDenied)
    as (r & rep & Hrun & Hn & _ & _ & Htr & Hc & _ & Hrep & _).
  - unfold ContactForm.maxRetries. lia.
  - intros k Hk. lia.
  - reflexivity.
  - reflexivity.
  - exists r. split; [assumption|]. split; [assumption|].
    rewrite (Htr eq_refl). split; [reflexivity|].
    rewrite Hc. destruct Hrep as [[_ Hrep]|[Hp _]]; [now rewrite Hrep|discriminate].
Defined.

Lemma enrichment_failure_asymmetry_witness :
  ContactForm.getVisitorData Samples.geoDownBrowser = None /\
  exists visitorData,
    ContactForm.getVisitorData Samples.refusedBrowser = Some visitorData /\
    ContactForm.loc_latitude (ContactForm.vd_location visitorData) = None /\
    ContactForm.loc_city (ContactForm.vd_location visitorData) = "Colombo" /\
    ContactForm.loc_postal (ContactForm.vd_location visitorData) = "Unknown".
Proof.
  split.
  - apply (proj1 (@enrichment_failure_asymmetry Samples.testHost Samples.geoDownBrowser)).
    intros ipResponse ipData _ _. reflexivity.
  - eexists. split.
    + eapply (proj2 (@enrichment_failure_asymmetry Samples.testHost Samples.refusedBrowser));
        reflexivity.
    + repeat split; reflexivity.
Defined.

(** ** Strings: results *)

Lemma prefix_spec :
  forall t s, prefix t s = true <-> exists post, s = t ++ post.
Proof.
  induction t as [|c t IH]; intros s.
  - split; [intros _; exists s; reflexivity|]. intros _. now destruct s.
  - destruct s as [|c' s]; simpl.
    + split; [discriminate|]. intros [post Hp]. discriminate.
    + destruct (ascii_dec c c') as [->|Hne].
      * rewrite IH. split; intros [post Hp]; exists post; [now rewrite Hp|].
        now injection Hp.
      * split; [discriminate|]. intros [post Hp]. injection Hp as Hc _. congruence.
Qed.

(** [includes] is the substring relation. *)
Lemma includes_spec :
  forall s t, Js.includes s t = true <-> exists pre post, s = pre ++ t ++ post.
Proof.
  induction s as [|c s IH]; intros t; cbn [Js.includes].
  - rewrite orb_false_r, prefix_spec. split.
    + intros [post Hp]. exists EmptyString, post. exact Hp.
    + intros (pre & post & Hp). destruct pre; [|discriminate].
      exists post. exact Hp.
  - rewrite orb_true_iff, prefix_spec, IH. split.
    + intros [[post Hp]|(pre & post & Hp)].
      * exists EmptyString, post. exact Hp.
      * exists (String c pre), post. simpl. now rewrite Hp.
    + intros (pre & post & Hp). destruct pre as [|c' pre].
      * left. exists post. exact Hp.
      * right. exists pre, post. simpl in Hp. now injection Hp.
Qed.

Lemma includes_empty : forall s, Js.includes s EmptyString = true.
Proof. intros s. destruct s; reflexivity. Qed.


(** ** The dashboard: results *)

Section DashboardResults.
Context {H : Host}.
Import AdminDashboard.

Lemma pushIfTruthy_present :
  forall parts field, pushIfTruthy parts field = (parts ++ present field)%list.
Proof.
  intros parts [s|]; simpl; [|now rewrite app_nil_r].
  destruct (s =? EmptyString); [now rewrite app_nil_r|reflexivity].
Qed.

Lemma present_falsy : forall field, Js.truthy field = false -> present field = [].
Proof.
  intros [s|]; simpl; [|reflexivity].
  destruct (s =? EmptyString); [reflexivity|discriminate].
Qed.

(** C10: the display string of a location is the comma-and-space join of the
    members of city, region, country that are not missing; it is N/A when
    the location is absent or all three are missing, and it is the city
    alone, with no separator, when only the city is present. *)
Theorem location_display :
  forall location : option stored_location,
    getLocationString location = displayRule location /\
    (location = None -> getLocationString location = "N/A") /\
    (forall l, location = Some l ->
       Js.truthy (city l) = false -> Js.truthy (region l) = false ->
       Js.truthy (country l) = false ->
       getLocationString location = "N/A") /\
    (forall l c, location = Some l ->
       city l = Some c -> c <> EmptyString ->
       Js.truthy (region l) = false -> Js.truthy (country l) = false ->
       getLocationString location = c).
Proof.
  intros location.
  assert (Hrule : getLocationString location = displayRule location).
  { destruct location as [l|]; [|reflexivity].
    unfold getLocationString, displayRule.
    rewrite !pushIfTruthy_present. cbn [app]. rewrite <- app_assoc.
    destruct (present (city l) ++ present (region l) ++ present (country l))%list;
      reflexivity. }
  split; [exact Hrule|]. rewrite Hrule. repeat split.
  - intros ->. reflexivity.
  - intros l -> Hc Hr Hn. unfold displayRule.
    now rewrite (present_falsy _ Hc), (present_falsy _ Hr), (present_falsy _ Hn).
  - intros l c -> Hc Hne Hr Hn. unfold displayRule.
    rewrite (present_falsy _ Hr), (present_falsy _ Hn), Hc. simpl.
    apply String.eqb_neq in Hne. now rewrite Hne.
Qed.

(** What [getCoordinates] returns, and when. *)
Lemma getCoordinates_some :
  forall location c,
    getCoordinates location = Some c <->
    exists l lat lng,
      location = Some l /\ latitude l = Some lat /\ longitude l = Some lng /\
      numberToBoolean lat = true /\ numberToBoolean lng = true /\
      c = numberToString lat ++ ", " ++ numberToString lng.
Proof.
  intros location c. unfold getCoordinates. split.
  - destruct location as [l|]; [|discriminate].
    destruct (latitude l) as [lat|] eqn:Hlat; [|discriminate].
    destruct (longitude l) as [lng|] eqn:Hlng; [|discriminate].
    destruct (numberToBoolean lat) eqn:Ha; [|discriminate].
    destruct (numberToBoolean lng) eqn:Hb; [|discriminate].
    intros Hc. injection Hc as <-. exists l, lat, lng. repeat split; assumption.
  - intros (l & lat & lng & -> & Hlat & Hlng & Ha & Hb & ->).
    now rewrite Hlat, Hlng, Ha, Hb.
Qed.

(** A map link is produced exactly when coordinates are, and is the provider
    address followed by them. *)
Lemma getGoogleMapsUrl_some :
  forall location url,
    getGoogleMapsUrl location = Some url <->
    exists c, getCoordinates location = Some c /\
              url = "https://www.google.com/maps?q=" ++ c.
Proof.
  intros location url. unfold getGoogleMapsUrl. split.
  - destruct (getCoordinates location) as [c|] eqn:Hc; [|discriminate].
    destruct (c =? EmptyString); [discriminate|].
    intros Hu. injection Hu as <-. now exists c.
  - intros (c & Hc & ->). rewrite Hc.
    apply getCoordinates_some in Hc.
    destruct Hc as (l & lat & lng & _ & _ & _ & _ & _ & ->).
    destruct (numberToString lat); reflexivity.
Qed.

(** No coordinates and no map link for a record without a location. *)
Lemma no_map_link_without_location :
  getCoordinates None = None /\ getGoogleMapsUrl None = None.
Proof. split; reflexivity. Qed.



Lemma ceilDiv_spec :
  forall n : Z,
    (itemsPerPage * (ceilDiv n itemsPerPage - 1) < n <= itemsPerPage * ceilDiv n itemsPerPage)%Z.
Proof.
  intros n. unfold ceilDiv, itemsPerPage.
  pose proof (Z.div_mod (- n) 10 ltac:(lia)) as Hdm.
  pose proof (Z.mod_pos_bound (- n) 10 ltac:(lia)) as Hb.
  lia.
Qed.




Lemma prop_declared :
  forall (s : submission) (k : string),
    In k (map fst initialColumns) -> exists v, prop s k = Some v.
Proof.
  intros s k Hk. simpl in Hk.
  repeat (destruct Hk as [<-|Hk]; [eexists; reflexivity|]).
  contradiction.
Qed.

Lemma filter_all :
  forall (A : Type) (f : A -> bool) (l : list A),
    (forall x, In x l -> f x = true) -> filter f l = l.
Proof.
  intros A f l. induction l as [|x l IH]; intros Hall; [reflexivity|].
  simpl. rewrite (Hall x (or_introl eq_refl)). f_equal.
  apply IH. intros y Hy. apply Hall. now right.
Qed.

(** The predicate of the filter, row by row. *)
Lemma matchesSearch_spec :
  forall (visibleColumns : columns) (searchTerm : string) (s : submission),
    matchesSearch visibleColumns searchTerm s = true <->
    exists k v,
      In (k, true) visibleColumns /\ prop s k = Some v /\
      exists pre post,
        Js.toLowerCase (toString v) = pre ++ Js.toLowerCase searchTerm ++ post.
Proof.
  intros vc term s. unfold matchesSearch. rewrite existsb_exists. split.
  - intros [[k visible] [Hin Hm]].
    destruct visible; [|discriminate]. cbn [andb] in Hm.
    destruct (prop s k) as [v|] eqn:Hv; [|discriminate].
    apply includes_spec in Hm. exists k, v. auto.
  - intros (k & v & Hin & Hv & Hsub).
    exists (k, true). split; [assumption|].
    rewrite Hv. cbn [andb]. now apply includes_spec.
Qed.

(** C5 (as amended): a row passes the filter exactly when the lower-cased
    string form of some visible column's field contains the lower-cased
    search term; with an empty search term and at least one of the declared
    columns visible, every row passes and the filter returns the rows
    unchanged and in order. *)
Theorem filter_predicate :
  forall (st : state) (s : submission),
    (matchesSearch (visibleColumns st) (searchTerm st) s = true <->
     exists k v,
       In (k, true) (visibleColumns st) /\ prop s k = Some v /\
       exists pre post,
         Js.toLowerCase (toString v) = pre ++ Js.toLowerCase (searchTerm st) ++ post) /\
    (searchTerm st = EmptyString ->
     (exists k, In (k, true) (visibleColumns st) /\ In k (map fst initialColumns)) ->
     matchesSearch (visibleColumns st) (searchTerm st) s = true /\
     filterStep st = submissions st).
Proof.
  intros st s. split; [apply matchesSearch_spec|].
  intros Hterm (k & Hvis & Hdecl).
  assert (Hall : forall r, matchesSearch (visibleColumns st) (searchTerm st) r = true).
  { intros r. apply matchesSearch_spec.
    destruct (prop_declared r k Hdecl) as [v Hv].
    exists k, v. split; [assumption|]. split; [assumption|].
    rewrite Hterm. exists EmptyString, (Js.toLowerCase (toString v)). reflexivity. }
  split; [apply Hall|].
  unfold filterStep. apply filter_all. intros r _. apply Hall.
Qed.


(** Toggling a declared column leaves the order of the columns alone. *)
Lemma toggleEntry_keys :
  forall (column : string) (prev : columns),
    In column (map fst prev) -> map fst (toggleEntry column prev) = map fst prev.
Proof.
  intros column prev. induction prev as [|[k visible] rest IH]; [contradiction|].
  intros Hin. cbn [toggleEntry]. destruct (k =? column) eqn:Hk; [reflexivity|].
  cbn [map fst]. f_equal. apply IH.
  destruct Hin as [Heq|Hin]; [|assumption].
  simpl in Heq. subst. now rewrite String.eqb_refl in Hk.
Qed.


Lemma arrayIncludes_In :
  forall (arr : list string) (x : string), arrayIncludes arr x = true <-> In x arr.
Proof.
  intros arr x. unfold arrayIncludes. rewrite existsb_exists. split.
  - intros [y [Hin Hy]]. apply String.eqb_eq in Hy. now subst.
  - intros Hin. exists x. split; [assumption|apply String.eqb_refl].
Qed.

Lemma firstRejection_none :
  forall (ids : list string) (deleteDoc : string -> completion unit),
    firstRejection ids deleteDoc = None <->
    forall i, In i ids -> fulfilled (deleteDoc i) = true.
Proof.
  intros ids deleteDoc. induction ids as [|i ids IH]; simpl.
  - split; [intros _ i []|reflexivity].
  - destruct (deleteDoc i) as [u|e] eqn:Hi.
    + rewrite IH. split.
      * intros Hall j [<-|Hj]; [now rewrite Hi|now apply Hall].
      * intros Hall j Hj. apply Hall. now right.
    + split; [discriminate|]. intros Hall.
      specialize (Hall i (or_introl eq_refl)). now rewrite Hi in Hall.
Qed.

Lemma firstRejection_some :
  forall (ids : list string) (deleteDoc : string -> completion unit) (e : js_error),
    firstRejection ids deleteDoc = Some e ->
    exists i, In i ids /\ deleteDoc i = Throw e.
Proof.
  intros ids deleteDoc e. induction ids as [|i ids IH]; simpl; [discriminate|].
  destruct (deleteDoc i) as [u|e'] eqn:Hi.
  - intros Hr. destruct (IH Hr) as [j [Hj Hd]]. exists j. auto.
  - intros Hr. injection Hr as <-. exists i. auto.
Qed.

(** C3 (as amended): every delete the store accepts takes effect and the
    others leave their document in place; when at least one delete of the
    selection fails, an error naming a failed delete is set, and the rows in
    memory and the selection are left as they were; when every delete
    succeeds, the selected rows leave the view and the selection is cleared;
    so a non-empty selection is cleared only when every delete succeeded. *)
Theorem bulk_delete_outcome :
  forall (deleteDoc : string -> completion unit) (db : list doc) (st : state),
    let st' := fst (handleBulkDelete true deleteDoc db st) in
    let db' := snd (handleBulkDelete true deleteDoc db st) in
    (forall d, In d db' <->
               In d db /\
               ~ (In (doc_id d) (selectedItems st) /\
                  fulfilled (deleteDoc (doc_id d)) = true)) /\
    ((exists i, In i (selectedItems st) /\ fulfilled (deleteDoc i) = false) ->
     (exists i e, In i (selectedItems st) /\ deleteDoc i = Throw e /\
                  error st' = Some ("Error deleting submissions: " ++ Exn.message e)) /\
     submissions st' = submissions st /\
     selectedItems st' = selectedItems st) /\
    ((forall i, In i (selectedItems st) -> fulfilled (deleteDoc i) = true) ->
     (forall s, In s (submissions st') <->
                In s (submissions st) /\ ~ In (id s) (selectedItems st)) /\
     selectedItems st' = [] /\
     error st' = error st) /\
    (selectedItems st <> [] -> selectedItems st' = [] ->
     forall i, In i (selectedItems st) -> fulfilled (deleteDoc i) = true).
Proof.
  intros deleteDoc db st st' db'. subst st' db'.
  unfold handleBulkDelete. cbn [negb].
  split.
  { intros d.
    destruct (firstRejection (selectedItems st) deleteDoc); cbn [snd];
      rewrite filter_In, negb_true_iff, andb_false_iff;
      rewrite <- (arrayIncludes_In (selectedItems st) (doc_id d));
      (split; intros [Hin Hno]; (split; [assumption|]));
      destruct (arrayIncludes (selectedItems st) (doc_id d));
      destruct (fulfilled (deleteDoc (doc_id d))); intuition congruence. }
  destruct (firstRejection (selectedItems st) deleteDoc) as [e|] eqn:Hfirst;
    cbn [fst].
  - split; [|split].
    + intros _. split; [|split; reflexivity].
      destruct (firstRejection_some _ _ _ Hfirst) as [i [Hi Hd]].
      exists i, e. auto.
    + intros Hall. destruct (firstRejection_some _ _ _ Hfirst) as [i [Hi Hd]].
      specialize (Hall i Hi). now rewrite Hd in Hall.
    + intros Hne Hempty. cbn in Hempty. contradiction.
  - pose proof (proj1 (firstRejection_none _ _) Hfirst) as Hall.
    split; [|split].
    + intros [i [Hi Hf]]. rewrite (Hall i Hi) in Hf. discriminate.
    + intros _. split; [|split; reflexivity].
      intros s. cbn [setSelectedItems setSubmissions submissions].
      rewrite filter_In, negb_true_iff.
      rewrite <- (arrayIncludes_In (selectedItems st) (id s)).
      destruct (arrayIncludes (selectedItems st) (id s)); intuition congruence.
    + intros _ _. exact Hall.
Qed.

End DashboardResults.

(** *** The dashboard on the sample documents *)

(** C7: a fix with latitude 0 is a present latitude, yet [getCoordinates]
    treats it as missing: the row gets neither coordinates nor a map link,
    while its place names are displayed.  A fix off the equator gets both. *)
Theorem equator_fix_has_no_map_link :
  AdminDashboard.latitude DashboardSamples.equatorLocation = Some 0%Z /\
  AdminDashboard.longitude DashboardSamples.equatorLocation = Some 37%Z /\
  AdminDashboard.getCoordinates (Some DashboardSamples.equatorLocation) = None /\
  AdminDashboard.getGoogleMapsUrl (Some DashboardSamples.equatorLocation) = None /\
  AdminDashboard.coordinates
    (AdminDashboard.toSubmission DashboardSamples.now DashboardSamples.docB) = None /\
  AdminDashboard.googleMapsUrl
    (AdminDashboard.toSubmission DashboardSamples.now DashboardSamples.docB) = None /\
  AdminDashboard.location
    (AdminDashboard.toSubmission DashboardSamples.now DashboardSamples.docB)
    = "Nanyuki, Laikipia, KE" /\
  AdminDashboard.getCoordinates (Some DashboardSamples.colomboLocation) = Some "7, 80" /\
  AdminDashboard.getGoogleMapsUrl (Some DashboardSamples.colomboLocation)
    = Some "https://www.google.com/maps?q=7, 80".
Proof. repeat split; vm_compute; reflexivity. Qed.

Lemma location_display_witness :
  AdminDashboard.getLocationString (Some DashboardSamples.cityOnly) = "Kandy" /\
  AdminDashboard.getLocationString (Some DashboardSamples.noLocation) = "N/A".
Proof.
  split.
  - apply (proj2 (proj2 (proj2
             (@location_display Samples.testHost (Some DashboardSamples.cityOnly))))
             DashboardSamples.cityOnly "Kandy"); try reflexivity.
    discriminate.
  - apply (proj1 (proj2 (proj2
             (@location_display Samples.testHost (Some DashboardSamples.noLocation))))
             DashboardSamples.noLocation); reflexivity.
Defined.




(** With every column switched off, the empty search term matches no row:
    the filter returns nothing although two rows are loaded. *)
Lemma empty_term_with_all_columns_hidden :
  let st := DashboardSamples.allHidden
              (DashboardSamples.loaded [DashboardSamples.docA; DashboardSamples.docB]) in
  AdminDashboard.searchTerm st = EmptyString /\
  List.length (AdminDashboard.submissions st) = 2%nat /\
  AdminDashboard.filterStep (H := Samples.testHost) st = [] /\
  AdminDashboard.filterStep (H := Samples.testHost) st <> AdminDashboard.submissions st.
Proof.
  intros st. repeat split; try (vm_compute; reflexivity).
  vm_compute. discriminate.
Qed.

Lemma filter_predicate_witness :
  let st := DashboardSamples.loaded [DashboardSamples.docA; DashboardSamples.docB] in
  AdminDashboard.filterStep (H := Samples.testHost) st = AdminDashboard.submissions st.
Proof.
  intros st.
  apply (proj2 (@filter_predicate Samples.testHost st
                  (AdminDashboard.toSubmission DashboardSamples.now DashboardSamples.docA))).
  - reflexivity.
  - exists "name". split; [left; reflexivity|left; reflexivity].
Defined.


(** Deleting A and B when the store refuses B: A is gone from the store, yet
    both rows are still in the view; the error is set and the selection is
    kept. *)
Lemma partial_failure_leaves_view_stale :
  let r := AdminDashboard.handleBulkDelete true DashboardSamples.refusesB
             [DashboardSamples.docA; DashboardSamples.docB] DashboardSamples.bothSelected in
  snd r = [DashboardSamples.docB] /\
  map AdminDashboard.id (AdminDashboard.submissions (fst r)) = ["A"; "B"] /\
  In (AdminDashboard.toSubmission DashboardSamples.now DashboardSamples.docA)
     (AdminDashboard.submissions (fst r)) /\
  AdminDashboard.error (fst r)
    = Some "Error deleting submissions: Missing or insufficient permissions." /\
  AdminDashboard.selectedItems (fst r) = ["A"; "B"].
Proof.
  intros r. repeat split; try (vm_compute; reflexivity).
  left. reflexivity.
Qed.

Lemma bulk_delete_outcome_witness :
  let db := [DashboardSamples.docA; DashboardSamples.docB] in
  let failed := AdminDashboard.handleBulkDelete true DashboardSamples.refusesB db
                  DashboardSamples.bothSelected in
  let done := AdminDashboard.handleBulkDelete true (fun _ => Normal tt) db
                DashboardSamples.bothSelected in
  AdminDashboard.submissions (fst failed)
    = AdminDashboard.submissions DashboardSamples.bothSelected /\
  AdminDashboard.selectedItems (fst failed) = ["A"; "B"] /\
  AdminDashboard.selectedItems (fst done) = [].
Proof.
  intros db failed done.
  destruct (@bulk_delete_outcome Samples.testHost DashboardSamples.refusesB db
              DashboardSamples.bothSelected) as (_ & Hfail & _ & _).
  destruct (@bulk_delete_outcome Samples.testHost (fun _ => Normal tt) db
              DashboardSamples.bothSelected) as (_ & _ & Hok & _).
  destruct Hfail as (_ & Hview & Hsel).
  { exists "B". split; [right; left; reflexivity|reflexivity]. }
  destruct Hok as (_ & Hcleared & _).
  { intros i _. reflexivity. }
  split; [exact Hview|]. split; [exact Hsel|]. exact Hcleared.
Defined.

(** ** The contact form: further results *)

Section ContactFormCoverage.
Context {H : Host}.
Import ContactForm.

Lemma orElse_nonempty :
  forall (o : option string) (d : string), d <> EmptyString -> Js.orElse o d <> EmptyString.
Proof.
  intros [s|] d Hd; simpl; [|assumption].
  destruct (s =? EmptyString) eqn:Hs; [assumption|].
  now apply String.eqb_neq.
Qed.

(** X1: [getVisitorData] yields a record exactly when both network lookups answer
    with a success status and a readable body; the device geolocation has no
    say in it. *)
Theorem visitor_data_present_iff :
  forall env : browser,
    (exists visitorData, getVisitorData env = Some visitorData) <->
    (exists ipResponse ipData locationResponse locationData,
       fetchIpify env = Normal ipResponse /\ ok ipResponse = true /\
       json ipResponse = Normal ipData /\
       fetchIpinfo env (ip ipData) = Normal locationResponse /\
       ok locationResponse = true /\
       json locationResponse = Normal locationData).
Proof.
  intros env. unfold getVisitorData. split.
  - intros [v Hv].
    destruct (fetchIpify env) as [ipResponse|e]; [|discriminate].
    cbn [bind catch] in Hv.
    destruct (ok ipResponse) eqn:Hok; [|discriminate]. cbn [negb] in Hv.
    destruct (json ipResponse) as [ipData|e] eqn:Hjson; [|discriminate].
    cbn [bind] in Hv.
    destruct (fetchIpinfo env (ip ipData)) as [locationResponse|e] eqn:Hgeo;
      [|discriminate].
    cbn [bind] in Hv.
    destruct (ok locationResponse) eqn:Hok'; [|discriminate]. cbn [negb] in Hv.
    destruct (json locationResponse) as [locationData|e] eqn:Hjson'; [|discriminate].
    exists ipResponse, ipData, locationResponse, locationData. repeat split; auto.
  - intros (ipResponse & ipData & locationResponse & locationData
            & -> & Hok & Hjson & Hgeo & Hok' & Hjson').
    cbn [bind]. rewrite Hok. cbn [negb]. rewrite Hjson. cbn [bind].
    rewrite Hgeo. cbn [bind]. rewrite Hok'. cbn [negb]. rewrite Hjson'.
    cbn [bind catch]. eexists. reflexivity.
Qed.

(** The fields of a record that [getVisitorData] yields. *)
Lemma visitor_data_fields :
  forall (env : browser) (visitorData : visitor_data),
    getVisitorData env = Some visitorData ->
    let l := vd_location visitorData in
    loc_city l <> EmptyString /\ loc_region l <> EmptyString /\
    loc_country l <> EmptyString /\ loc_postal l <> EmptyString /\
    loc_timezone l <> EmptyString /\
    ((exists position,
        geolocation env = Some (inl position) /\
        loc_latitude l = Some (coords_latitude position) /\
        loc_longitude l = Some (coords_longitude position) /\
        loc_accuracy l = Some (coords_accuracy position)) \/
     (fulfilled (getDeviceLocation env) = false /\
      loc_latitude l = None /\ loc_longitude l = None /\ loc_accuracy l = None)) /\
    dd_screenResolution (vd_deviceDetails visitorData) =
      numberToString (screen_width env) ++ "x" ++ numberToString (screen_height env) /\
    vd_timestamp visitorData = enrichedAt env.
Proof.
  intros env v Hv. unfold getVisitorData in Hv.
  destruct (fetchIpify env) as [ipResponse|e]; [|discriminate].
  cbn [bind catch] in Hv.
  destruct (ok ipResponse); [|discriminate]. cbn [negb] in Hv.
  destruct (json ipResponse) as [ipData|e]; [|discriminate]. cbn [bind] in Hv.
  destruct (fetchIpinfo env (ip ipData)) as [locationResponse|e]; [|discriminate].
  cbn [bind] in Hv.
  destruct (ok locationResponse); [|discriminate]. cbn [negb] in Hv.
  destruct (json locationResponse) as [locationData|e]; [|discriminate].
  cbn [bind catch] in Hv. injection Hv as <-. cbn [vd_location vd_deviceDetails
    vd_timestamp loc_city loc_region loc_country loc_postal loc_timezone
    loc_latitude loc_longitude loc_accuracy dd_screenResolution].
  repeat (split; [apply orElse_nonempty; discriminate|]).
  split; [|split; reflexivity].
  unfold getDeviceLocation.
  destruct (geolocation env) as [[position|error]|]; cbn.
  - left. exists position. repeat split.
  - right. repeat split.
  - right. repeat split.
Qed.

(** X2: Every record [getVisitorData] yields is complete: none of its five place
    strings is empty, its coordinates are either the three values of the
    device fix or all three null, its resolution is width x height, and its
    timestamp is the enrichment time. *)
Theorem visitor_data_complete :
  forall (env : browser) (visitorData : visitor_data),
    getVisitorData env = Some visitorData ->
    let l := vd_location visitorData in
    loc_city l <> EmptyString /\ loc_region l <> EmptyString /\
    loc_country l <> EmptyString /\ loc_postal l <> EmptyString /\
    loc_timezone l <> EmptyString /\
    ((exists position,
        geolocation env = Some (inl position) /\
        loc_latitude l = Some (coords_latitude position) /\
        loc_longitude l = Some (coords_longitude position) /\
        loc_accuracy l = Some (coords_accuracy position)) \/
     (fulfilled (getDeviceLocation env) = false /\
      loc_latitude l = None /\ loc_longitude l = None /\ loc_accuracy l = None)) /\
    dd_screenResolution (vd_deviceDetails visitorData) =
      numberToString (screen_width env) ++ "x" ++ numberToString (screen_height env) /\
    vd_timestamp visitorData = enrichedAt env.
Proof. exact visitor_data_fields. Qed.


(** The iteration whose write is accepted ends the loop with the success
    status and the emptied form. *)
Lemma retryLoop_success :
  forall fuel addDoc contactData retryCount lastError st tr docRef,
    (retryCount < maxRetries)%nat ->
    addDoc retryCount = Normal docRef ->
    retryLoop (S fuel) addDoc contactData retryCount lastError st tr =
    Some (Normal tt,
          {| formData := WriterSpec.emptyForm; isSubmitting := isSubmitting st;
             submitStatus := Some StatusSuccess |},
          (tr ++ [AddDoc (retryCount + 1) contactData])%list).
Proof.
  intros fuel addDoc contactData retryCount lastError st tr docRef Hlt Hadd.
  cbn -[maxRetries Nat.ltb Nat.eqb Z.pow Z.mul Z.of_nat].
  replace (retryCount <? maxRetries)%nat with true
    by (symmetry; apply Nat.ltb_lt; lia).
  now rewrite Hadd.
Qed.

(** The last iteration of the budget, rejected with a transient error, throws
    that error. *)
Lemma retryLoop_exhausted :
  forall fuel addDoc contactData retryCount lastError st tr error,
    S retryCount = maxRetries ->
    addDoc retryCount = Throw error ->
    terminal error = false ->
    retryLoop (S fuel) addDoc contactData retryCount lastError st tr =
    Some (Throw error, st, (tr ++ [AddDoc (retryCount + 1) contactData])%list).
Proof.
  intros fuel addDoc contactData retryCount lastError st tr error Hlast Hadd Hterm.
  apply terminal_false in Hterm. destruct Hterm as [Hp Hu].
  cbn -[maxRetries Nat.ltb Nat.eqb Z.pow Z.mul Z.of_nat].
  replace (retryCount <? maxRetries)%nat with true
    by (symmetry; apply Nat.ltb_lt; lia).
  rewrite Hadd, Hp, Hu.
  replace (S retryCount =? maxRetries)%nat with true
    by (symmetry; apply Nat.eqb_eq; assumption).
  reflexivity.
Qed.

(** The shape of every run, for whatever the store answers. *)
Lemma writer_runs :
  forall (env : browser) (addDoc : store) (st : component),
  exists r m,
    handleSubmit env addDoc st = Some r /\
    (1 <= m <= maxRetries)%nat /\
    trace r = WriterSpec.backoffTrace (contactDataOf env st) m /\
    (forall k, (k < m - 1)%nat -> exists e, addDoc k = Throw e /\ terminal e = false) /\
    isSubmitting (final r) = false /\
    ((exists docRef,
        addDoc (m - 1)%nat = Normal docRef /\
        submitStatus (final r) = Some StatusSuccess /\
        caught r = None /\
        formData (final r) = WriterSpec.emptyForm) \/
     (exists e,
        addDoc (m - 1)%nat = Throw e /\
        (terminal e = true \/ m = maxRetries) /\
        submitStatus (final r) = Some StatusError /\
        caught r <> None /\
        formData (final r) = formData st)).
Proof.
  intros env addDoc st. unfold handleSubmit.
  change maxRetries with 3%nat at 1. cbn [formData]. fold (contactDataOf env st).
  (* the answer to one write *)
  assert (Hcase : forall k, (exists docRef, addDoc k = Normal docRef) \/
                            (exists e, addDoc k = Throw e /\ terminal e = true) \/
                            (exists e, addDoc k = Throw e /\ terminal e = false)).
  { intros k. destruct (addDoc k) as [docRef|e]; [left; eauto|].
    destruct (terminal e) eqn:He; [right; left|right; right]; eauto. }
  destruct (Hcase 0%nat) as [[d0 A0]|[[e0 [A0 T0]]|[e0 [A0 T0]]]].
  - rewrite (retryLoop_success _ _ _ 0%nat _ _ _ d0 ltac:(unfold maxRetries; lia) A0).
    eexists; exists 1%nat. split; [reflexivity|].
    cbn. unfold maxRetries. repeat split; try lia.
    left. exists d0. repeat split; assumption.
  - destruct (retryLoop_terminal 2 addDoc (contactDataOf env st) 0%nat None
                {| formData := formData st; isSubmitting := true; submitStatus := None |}
                [] e0 ltac:(unfold maxRetries; lia) A0 T0) as (rep & Hrun & _ & _).
    rewrite Hrun.
    eexists; exists 1%nat. split; [reflexivity|].
    cbn. unfold maxRetries. repeat split; try lia.
    right. exists e0. repeat split; auto. discriminate.
  - rewrite (retryLoop_transient _ _ _ 0%nat _ _ _ e0 ltac:(unfold maxRetries; lia) A0 T0).
    destruct (Hcase 1%nat) as [[d1 A1]|[[e1 [A1 T1]]|[e1 [A1 T1]]]].
    + rewrite (retryLoop_success _ _ _ 1%nat _ _ _ d1 ltac:(unfold maxRetries; lia) A1).
      eexists; exists 2%nat. split; [reflexivity|].
      cbn. unfold maxRetries. repeat split; try lia.
      * intros k Hk. assert (k = 0%nat) by lia. subst k. eauto.
      * left. exists d1. repeat split; assumption.
    + match goal with
      | |- context [retryLoop 2 addDoc ?c 1%nat ?l ?s ?t] =>
          destruct (retryLoop_terminal 1 addDoc c 1%nat l s t e1
                      ltac:(unfold maxRetries; lia) A1 T1) as (rep & Hrun & _ & _)
      end.
      rewrite Hrun.
      eexists; exists 2%nat. split; [reflexivity|].
      cbn. unfold maxRetries. repeat split; try lia.
      * intros k Hk. assert (k = 0%nat) by lia. subst k. eauto.
      * right. exists e1. repeat split; auto. discriminate.
    + rewrite (retryLoop_transient _ _ _ 1%nat _ _ _ e1
                 ltac:(unfold maxRetries; lia) A1 T1).
      assert (Hprev : forall k, (k < 2)%nat -> exists e, addDoc k = Throw e /\ terminal e = false).
      { intros k Hk. destruct k as [|[|k]]; [eauto|eauto|lia]. }
      destruct (Hcase 2%nat) as [[d2 A2]|[[e2 [A2 T2]]|[e2 [A2 T2]]]].
      * rewrite (retryLoop_success _ _ _ 2%nat _ _ _ d2 ltac:(unfold maxRetries; lia) A2).
        eexists; exists 3%nat. split; [reflexivity|].
        cbn. unfold maxRetries. repeat split; try lia; auto.
        left. exists d2. repeat split; assumption.
      * match goal with
        | |- context [retryLoop 1 addDoc ?c 2%nat ?l ?s ?t] =>
            destruct (retryLoop_terminal 0 addDoc c 2%nat l s t e2
                        ltac:(unfold maxRetries; lia) A2 T2) as (rep & Hrun & _ & _)
        end.
        rewrite Hrun.
        eexists; exists 3%nat. split; [reflexivity|].
        cbn. unfold maxRetries. repeat split; try lia; auto.
        right. exists e2. repeat split; auto. discriminate.
      * rewrite (retryLoop_exhausted _ _ _ 2%nat _ _ _ e2 eq_refl A2 T2).
        eexists; exists 3%nat. split; [reflexivity|].
        cbn. unfold maxRetries. repeat split; try lia; auto.
        right. exists e2. repeat split; auto. discriminate.
Qed.

Lemma attempts_backoffTrace :
  forall (contactData : contact_data) (m : nat),
    attempts (WriterSpec.backoffTrace contactData m) = m.
Proof.
  intros contactData m. unfold WriterSpec.backoffTrace, attempts.
  generalize 0%nat as k.
  induction m as [|m IH]; intros k; [reflexivity|].
  cbn [seq flat_map]. rewrite filter_app, length_app, IH.
  destruct k; reflexivity.
Qed.

(** X3: Whatever the store answers, a run makes between one and three attempts
    and follows the backoff schedule: the first write at once, a timer of
    [2^k] seconds before attempt [k + 1], the same record every time, and a
    further attempt only after a transient rejection. *)
Theorem writer_follows_schedule :
  forall (env : browser) (addDoc : store) (st : component),
  exists r m,
    handleSubmit env addDoc st = Some r /\
    (1 <= m <= 3)%nat /\
    trace r = WriterSpec.backoffTrace (contactDataOf env st) m /\
    attempts (trace r) = m /\
    (forall k, (k < m - 1)%nat -> exists e, addDoc k = Throw e /\ terminal e = false).
Proof.
  intros env addDoc st.
  destruct (writer_runs env addDoc st) as (r & m & Hrun & Hm & Htrace & Hprev & _).
  exists r, m. repeat split; try assumption; try (unfold maxRetries in Hm; lia).
  rewrite Htrace. apply attempts_backoffTrace.
Qed.

(** X4: Every run ends with the submitting flag cleared and with a status that is
    set: success, with the form emptied and no error, when the last attempt
    was accepted; error, with an error caught and what was typed kept in the
    form, when it was rejected. *)
Theorem writer_outcome :
  forall (env : browser) (addDoc : store) (st : component),
  exists r,
    handleSubmit env addDoc st = Some r /\
    isSubmitting (final r) = false /\
    ((submitStatus (final r) = Some StatusSuccess /\
      caught r = None /\
      formData (final r) = WriterSpec.emptyForm /\
      fulfilled (addDoc (attempts (trace r) - 1)%nat) = true) \/
     (submitStatus (final r) = Some StatusError /\
      caught r <> None /\
      formData (final r) = formData st /\
      fulfilled (addDoc (attempts (trace r) - 1)%nat) = false)).
Proof.
  intros env addDoc st.
  destruct (writer_runs env addDoc st) as (r & m & Hrun & Hm & Htrace & _ & Hflag & Hend).
  exists r. split; [assumption|]. split; [assumption|].
  rewrite Htrace, attempts_backoffTrace.
  destruct Hend as [(docRef & Hadd & Hs & Hc & Hf)|(e & Hadd & _ & Hs & Hc & Hf)];
    [left|right]; rewrite Hadd; repeat split; assumption.
Qed.

(** X5: A write accepted after [n] transient rejections ends the run with the
    success status: [n + 1] attempts, [n] timers, none after the accepted
    write, the form emptied. *)
Theorem writer_succeeds_after_transient :
  forall (env : browser) (addDoc : store) (st : component) (n : nat) (docRef : string),
    (n < maxRetries)%nat ->
    (forall k, (k < n)%nat -> exists e, addDoc k = Throw e /\ terminal e = false) ->
    addDoc n = Normal docRef ->
    exists r,
      handleSubmit env addDoc st = Some r /\
      trace r = WriterSpec.backoffTrace (contactDataOf env st) (S n) /\
      attempts (trace r) = S n /\
      List.length (delays (trace r)) = n /\
      submitStatus (final r) = Some StatusSuccess /\
      caught r = None /\
      formData (final r) = WriterSpec.emptyForm /\
      isSubmitting (final r) = false.
Proof.
  intros env addDoc st n docRef Hn Hprev Hadd.
  unfold handleSubmit. change maxRetries with 3%nat at 1.
  cbn [formData]. fold (contactDataOf env st).
  unfold maxRetries in Hn.
  destruct n as [|[|[|n]]]; [| | |lia].
  - rewrite (retryLoop_success _ _ _ 0%nat _ _ _ docRef ltac:(unfold maxRetries; lia) Hadd).
    eexists. split; [reflexivity|]. cbn. repeat split.
  - destruct (Hprev 0%nat ltac:(lia)) as (e0 & A0 & T0).
    rewrite (retryLoop_transient _ _ _ 0%nat _ _ _ e0 ltac:(unfold maxRetries; lia) A0 T0).
    rewrite (retryLoop_success _ _ _ 1%nat _ _ _ docRef ltac:(unfold maxRetries; lia) Hadd).
    eexists. split; [reflexivity|]. cbn. repeat split.
  - destruct (Hprev 0%nat ltac:(lia)) as (e0 & A0 & T0).
    destruct (Hprev 1%nat ltac:(lia)) as (e1 & A1 & T1).
    rewrite (retryLoop_transient _ _ _ 0%nat _ _ _ e0 ltac:(unfold maxRetries; lia) A0 T0).
    rewrite (retryLoop_transient _ _ _ 1%nat _ _ _ e1 ltac:(unfold maxRetries; lia) A1 T1).
    rewrite (retryLoop_success _ _ _ 2%nat _ _ _ docRef ltac:(unfold maxRetries; lia) Hadd).
    eexists. split; [reflexivity|]. cbn. repeat split.
Qed.

(** X6: A failed enrichment does not hold the message back: the record is
    written without telemetry, and an accepted write reports success. *)
Theorem writer_submits_without_telemetry :
  forall (env : browser) (addDoc : store) (st : component) (docRef : string),
    getVisitorData env = None ->
    addDoc 0%nat = Normal docRef ->
    exists r,
      handleSubmit env addDoc st = Some r /\
      trace r = [AddDoc 1 {| cd_form := formData st; cd_visitorData := None;
                             cd_submittedAt := submittedNow env |}] /\
      submitStatus (final r) = Some StatusSuccess.
Proof.
  intros env addDoc st docRef Hnone Hadd.
  unfold handleSubmit. change maxRetries with 3%nat at 1.
  cbn [formData]. rewrite Hnone.
  rewrite (retryLoop_success _ _ _ 0%nat _ _ _ docRef ltac:(unfold maxRetries; lia) Hadd).
  eexists. split; [reflexivity|]. cbn. split; reflexivity.
Qed.

End ContactFormCoverage.

Lemma visitor_data_complete_witness :
  exists visitorData,
    ContactForm.getVisitorData CoverageSamples.grantedBrowser = Some visitorData /\
    ContactForm.loc_latitude (ContactForm.vd_location visitorData) = Some 7%Z /\
    ContactForm.loc_postal (ContactForm.vd_location visitorData) <> EmptyString.
Proof.
  eexists. split; [vm_compute; reflexivity|].
  split; [reflexivity|].
  match goal with
  | |- ContactForm.loc_postal (ContactForm.vd_location ?v) <> _ =>
      destruct (@visitor_data_complete Samples.testHost CoverageSamples.grantedBrowser v
                  eq_refl) as (_ & _ & _ & Hpostal & _)
  end.
  exact Hpostal.
Defined.

Lemma writer_succeeds_after_transient_witness :
  exists r,
    ContactForm.handleSubmit Samples.refusedBrowser CoverageSamples.flakyStore
                             Samples.filledForm = Some r /\
    ContactForm.attempts (ContactForm.trace r) = 2%nat /\
    ContactForm.submitStatus (ContactForm.final r) = Some ContactForm.StatusSuccess.
Proof.
  destruct (@writer_succeeds_after_transient Samples.testHost Samples.refusedBrowser
              CoverageSamples.flakyStore Samples.filledForm 1%nat "doc-1")
    as (r & Hrun & _ & Hn & _ & Hs & _).
  - unfold ContactForm.maxRetries. lia.
  - intros k Hk. exists Samples.unavailable. destruct k; [split; reflexivity|lia].
  - reflexivity.
  - exists r. repeat split; assumption.
Defined.

Lemma writer_submits_without_telemetry_witness :
  exists r,
    ContactForm.handleSubmit Samples.geoDownBrowser (fun _ => Normal "doc-1")
                             Samples.filledForm = Some r /\
    ContactForm.submitStatus (ContactForm.final r) = Some ContactForm.StatusSuccess.
Proof.
  destruct (@writer_submits_without_telemetry Samples.testHost Samples.geoDownBrowser
              (fun _ => Normal "doc-1") Samples.filledForm "doc-1" eq_refl eq_refl)
    as (r & Hrun & _ & Hs).
  exists r. split; assumption.
Defined.

(** ** The location prompt: results *)

(** X7: After the check on mount, the popup is on screen exactly when geolocation
    exists and the permission is still to be asked or was denied; the
    refusal notice shows only in the denied case; the component navigates,
    once and to the home route, exactly when the permission is already
    granted.  A request that is refused never closes the popup nor navigates;
    one that is granted closes it and navigates once. *)
Theorem location_prompt_flow :
  forall (geolocation : bool) (query : completion LocationAccess.permission_state)
         (position : completion unit) (st : LocationAccess.component),
    let checked :=
      LocationAccess.checkLocationAccess geolocation query LocationAccess.initial in
    let requested := LocationAccess.requestLocationAccess position st in
    (LocationAccess.rendered (LocationAccess.after checked) = true <->
     geolocation = true /\
     (query = Normal LocationAccess.PermissionPrompt \/
      query = Normal LocationAccess.PermissionDenied)) /\
    (LocationAccess.showsRefusal (LocationAccess.after checked) = true <->
     geolocation = true /\ query = Normal LocationAccess.PermissionDenied) /\
    (LocationAccess.navigations checked = ["/"] <->
     geolocation = true /\ query = Normal LocationAccess.PermissionGranted) /\
    (LocationAccess.navigations checked <> ["/"] ->
     LocationAccess.navigations checked = []) /\
    (LocationAccess.rendered (LocationAccess.after requested)
       = LocationAccess.rendered st && negb (fulfilled position)) /\
    (LocationAccess.navigations requested = if fulfilled position then ["/"] else []) /\
    (LocationAccess.locationStatus (LocationAccess.after requested)
       = if fulfilled position then LocationAccess.Granted else LocationAccess.Denied).
Proof.
  intros geolocation query position st checked requested.
  subst checked requested.
  split; [|split; [|split; [|split; [|split; [|split]]]]].
  - destruct geolocation; [|cbn; intuition discriminate].
    destruct query as [[| |]|e]; cbn; intuition (auto; discriminate).
  - destruct geolocation; [|cbn; intuition discriminate].
    destruct query as [[| |]|e]; cbn; intuition (auto; discriminate).
  - destruct geolocation; [|cbn; intuition discriminate].
    destruct query as [[| |]|e]; cbn; intuition (auto; discriminate).
  - destruct geolocation; [|cbn; intuition discriminate].
    destruct query as [[| |]|e]; cbn; intuition (auto; discriminate).
  - destruct position, st as [[|] status]; reflexivity.
  - destruct position; reflexivity.
  - destruct position; reflexivity.
Qed.

(** ** The statistics: results *)

Section StatsResults.
Import AdminDashboard.

Lemma countSince_le_total :
  forall (t : Z) (submissions : list submission),
    (Stats.countSince t submissions <= List.length submissions)%nat.
Proof. intros t submissions. apply filter_length_le. Qed.

Lemma countSince_antitone :
  forall (t1 t2 : Z) (submissions : list submission),
    (t1 <= t2)%Z ->
    (Stats.countSince t2 submissions <= Stats.countSince t1 submissions)%nat.
Proof.
  intros t1 t2 submissions Hle. unfold Stats.countSince.
  induction submissions as [|s l IH]; [reflexivity|]. cbn [filter].
  destruct (t2 <=? submittedAt s)%Z eqn:H2.
  - apply Z.leb_le in H2.
    replace (t1 <=? submittedAt s)%Z with true by (symmetry; apply Z.leb_le; lia).
    cbn [List.length]. lia.
  - destruct (t1 <=? submittedAt s)%Z; cbn [List.length]; lia.
Qed.

(** X8: The four counters are nested: today's rows are among this week's and,
    when the first of the month is not after today's midnight, among this
    month's; none exceeds the total, which is the number of rows. *)
Theorem stats_nested :
  forall (cal : Stats.calendar) (now : Z) (submissions : list submission),
    (Stats.startOfMonth cal (Stats.startOfDay cal now) <= Stats.startOfDay cal now)%Z ->
    let s := Stats.computeStats cal now submissions in
    (Stats.today s <= Stats.thisWeek s)%nat /\
    (Stats.today s <= Stats.thisMonth s)%nat /\
    (Stats.thisWeek s <= Stats.total s)%nat /\
    (Stats.thisMonth s <= Stats.total s)%nat /\
    Stats.total s = List.length submissions.
Proof.
  intros cal now submissions Hmonth s. subst s. unfold Stats.computeStats.
  cbn [Stats.today Stats.thisWeek Stats.thisMonth Stats.total].
  split; [apply countSince_antitone; lia|].
  split; [apply countSince_antitone; assumption|].
  split; [apply countSince_le_total|].
  split; [apply countSince_le_total|reflexivity].
Qed.

(** X9: The bounds are inclusive: a row submitted at exactly today's local
    midnight adds one to each of the four counters. *)
Theorem stats_midnight_counts :
  forall (cal : Stats.calendar) (now : Z) (s : submission) (submissions : list submission),
    (Stats.startOfMonth cal (Stats.startOfDay cal now) <= Stats.startOfDay cal now)%Z ->
    submittedAt s = Stats.startOfDay cal now ->
    let before := Stats.computeStats cal now submissions in
    let after := Stats.computeStats cal now (s :: submissions) in
    Stats.total after = S (Stats.total before) /\
    Stats.today after = S (Stats.today before) /\
    Stats.thisWeek after = S (Stats.thisWeek before) /\
    Stats.thisMonth after = S (Stats.thisMonth before).
Proof.
  intros cal now s submissions Hmonth Hat before after. subst before after.
  unfold Stats.computeStats, Stats.countSince.
  cbn [Stats.today Stats.thisWeek Stats.thisMonth Stats.total filter].
  rewrite Hat.
  rewrite Z.leb_refl.
  replace (Stats.startOfDay cal now - 7 * 24 * 60 * 60 * 1000 <=? Stats.startOfDay cal now)%Z
    with true by (symmetry; apply Z.leb_le; lia).
  replace (Stats.startOfMonth cal (Stats.startOfDay cal now) <=? Stats.startOfDay cal now)%Z
    with true by (symmetry; apply Z.leb_le; assumption).
  repeat split.
Qed.

End StatsResults.

Lemma stats_nested_witness :
  let s := Stats.computeStats CoverageSamples.utcMay2025 CoverageSamples.noon
             [CoverageSamples.rowAt "a" 1746057600000;
              CoverageSamples.rowAt "b" 1745000000000] in
  (Stats.today s <= Stats.thisMonth s)%nat /\ Stats.total s = 2%nat.
Proof.
  intros s.
  destruct (stats_nested CoverageSamples.utcMay2025 CoverageSamples.noon
              [CoverageSamples.rowAt "a" 1746057600000;
               CoverageSamples.rowAt "b" 1745000000000])
    as (_ & Hmonth & _ & _ & Htotal).
  - apply Z.leb_le. vm_compute. reflexivity.
  - split; assumption.
Defined.

Lemma stats_midnight_counts_witness :
  Stats.today
    (Stats.computeStats CoverageSamples.utcMay2025 CoverageSamples.noon
       [CoverageSamples.rowAt "a" 1746057600000])
  = 1%nat.
Proof.
  destruct (stats_midnight_counts CoverageSamples.utcMay2025 CoverageSamples.noon
              (CoverageSamples.rowAt "a" 1746057600000) [])
    as (_ & Htoday & _).
  - apply Z.leb_le. vm_compute. reflexivity.
  - vm_compute. reflexivity.
  - exact Htoday.
Defined.

(** ** The dashboard: further results *)

Section DashboardCoverage.
Context {H : Host}.
Import AdminDashboard.

Lemma insertSorted_perm :
  forall (A : Type) (cmp : A -> A -> Z) (x : A) (l : list A),
    Permutation (insertSorted cmp x l) (x :: l).
Proof.
  intros A cmp x l. induction l as [|y l IH]; [apply Permutation_refl|].
  cbn [insertSorted]. destruct (cmp x y <=? 0)%Z; [apply Permutation_refl|].
  apply Permutation_trans with (y :: x :: l); [now apply perm_skip|apply perm_swap].
Qed.

Lemma sortWith_perm :
  forall (A : Type) (cmp : A -> A -> Z) (l : list A), Permutation (sortWith cmp l) l.
Proof.
  intros A cmp l. induction l as [|x l IH]; [apply perm_nil|].
  cbn [sortWith].
  apply Permutation_trans with (x :: sortWith cmp l);
    [apply insertSorted_perm|now apply perm_skip].
Qed.

(** A list on which the comparator never asks for an exchange is left as it
    is. *)
Lemma sortWith_fixed :
  forall (A : Type) (cmp : A -> A -> Z) (l : list A),
    (forall x y, In x l -> In y l -> (cmp x y <= 0)%Z) -> sortWith cmp l = l.
Proof.
  intros A cmp l. induction l as [|x l IH]; intros Hle; [reflexivity|].
  cbn [sortWith]. rewrite IH by (intros a b Ha Hb; apply Hle; now right).
  destruct l as [|y l]; [reflexivity|]. cbn [insertSorted].
  replace (cmp x y <=? 0)%Z with true; [reflexivity|].
  symmetry. apply Z.leb_le. apply Hle; [now left|right; now left].
Qed.

(** X10: Sorting neither loses nor invents rows: the table holds exactly the rows
    of the loaded set that pass the filter, each as often as it was loaded,
    so the page count depends on the filter alone. *)
Theorem table_rows_are_the_filtered_rows :
  forall st : state,
    Permutation (filteredSubmissions st) (filterStep st) /\
    (forall s, In s (filteredSubmissions st) <->
               In s (submissions st) /\
               matchesSearch (visibleColumns st) (searchTerm st) s = true) /\
    (List.length (filteredSubmissions st) <= List.length (submissions st))%nat /\
    totalPages st = ceilDiv (Z.of_nat (List.length (filterStep st))) itemsPerPage.
Proof.
  intros st.
  assert (Hperm : Permutation (filteredSubmissions st) (filterStep st))
    by apply sortWith_perm.
  split; [exact Hperm|]. split; [|split].
  - intros s. unfold filterStep in Hperm. rewrite <- filter_In. split.
    + apply Permutation_in. exact Hperm.
    + apply Permutation_in. apply Permutation_sym. exact Hperm.
  - rewrite (Permutation_length Hperm). apply filter_length_le.
  - unfold totalPages. now rewrite (Permutation_length Hperm).
Qed.

(** X11: Sorting by a column whose value is empty in every loaded row changes
    nothing: the table shows the filtered rows in load order, in either
    direction. *)
Theorem sort_on_empty_column_keeps_order :
  forall st : state,
    (forall s, In s (submissions st) -> isTruthy (prop s (key (sortConfig st))) = false) ->
    filteredSubmissions st = filterStep st.
Proof.
  intros st Hempty. unfold filteredSubmissions. apply sortWith_fixed.
  intros x y Hx _. unfold compareSubmissions.
  unfold filterStep in Hx. apply filter_In in Hx. destruct Hx as [Hx _].
  rewrite (Hempty x Hx). cbn [negb orb]. lia.
Qed.

(** X12: [fetchSubmissions] makes one row per document, in the order of the query
    and under the document's id, and ends the loading state; when the query
    fails it keeps the rows it had and sets the error instead. *)
Theorem fetch_one_row_per_document :
  forall (docs : list doc) (err : js_error) (now : Z) (st : state),
    let loaded := fetchSubmissions (Normal docs) now st in
    let failed := fetchSubmissions (Throw err) now st in
    map id (submissions loaded) = map doc_id docs /\
    List.length (submissions loaded) = List.length docs /\
    loading loaded = false /\ error loaded = error st /\
    submissions failed = submissions st /\
    loading failed = false /\
    error failed = Some ("Error fetching submissions: " ++ Exn.message err).
Proof.
  intros docs err now st loaded failed. subst loaded failed.
  cbn [fetchSubmissions setLoading setSubmissions setError submissions loading error].
  rewrite map_map, length_map. repeat split.
Qed.

Lemma append_cancel_l :
  forall p a b : string, p ++ a = p ++ b -> a = b.
Proof.
  induction p as [|c p IH]; intros a b Heq; [exact Heq|].
  cbn in Heq. injection Heq as Heq. now apply IH.
Qed.

Lemma getLocationString_nonempty :
  forall location : option stored_location, getLocationString location <> EmptyString.
Proof.
  intros [l|]; [|discriminate]. unfold getLocationString, pushIfTruthy.
  destruct (city l) as [[|c cs]|], (region l) as [[|r rs]|], (country l) as [[|k ks]|];
    cbn; discriminate.
Qed.

(** X13: In every row the map link and the coordinates go together: the link is
    the provider address followed by the coordinates, and it is absent
    exactly when the coordinates are; the location column is never empty;
    and a document without location yields N/A and neither of the two. *)
Theorem row_link_and_location :
  forall (now : Z) (d : doc),
    let row := toSubmission now d in
    (forall c, coordinates row = Some c <->
               googleMapsUrl row = Some ("https://www.google.com/maps?q=" ++ c)) /\
    (coordinates row = None <-> googleMapsUrl row = None) /\
    location row <> EmptyString /\
    (data_visitorData (data d) = None ->
     location row = "N/A" /\ coordinates row = None /\ googleMapsUrl row = None /\
     ipAddress row = EmptyString /\ deviceInfo row = EmptyString /\
     screenResolution row = EmptyString) /\
    id row = doc_id d.
Proof.
  intros now d row. subst row. unfold toSubmission.
  cbn [coordinates googleMapsUrl location id ipAddress deviceInfo screenResolution].
  set (loc := match data_visitorData (data d) with
              | Some v => visitor_location v
              | None => None
              end).
  assert (Hurl : forall c, getCoordinates loc = Some c ->
                           getGoogleMapsUrl loc = Some ("https://www.google.com/maps?q=" ++ c)).
  { intros c Hc. apply getGoogleMapsUrl_some. now exists c. }
  split; [|split; [|split; [|split]]].
  - intros c. split; [apply Hurl|].
    intros Hu. apply getGoogleMapsUrl_some in Hu. destruct Hu as (c' & Hc' & Heq).
    rewrite Hc'. f_equal. symmetry. revert Heq. apply append_cancel_l.
  - split.
    + intros Hc. unfold getGoogleMapsUrl. now rewrite Hc.
    + intros Hu. destruct (getCoordinates loc) as [c|] eqn:Hc; [|reflexivity].
      rewrite (Hurl c eq_refl) in Hu. discriminate.
  - apply getLocationString_nonempty.
  - subst loc. intros Hnone. rewrite Hnone. repeat split.
  - reflexivity.
Qed.

(** X14: Switching a declared column twice restores the menu; a switch leaves the
    order of the columns and the flags of the others alone; a key the menu
    does not hold yet is appended as visible. *)
Theorem toggle_column_laws :
  forall (column : string) (prev : columns),
    (In column (map fst prev) ->
     toggleEntry column (toggleEntry column prev) = prev /\
     map fst (toggleEntry column prev) = map fst prev) /\
    (forall k v, k <> column ->
       (In (k, v) (toggleEntry column prev) <-> In (k, v) prev)) /\
    (~ In column (map fst prev) ->
     toggleEntry column prev = (prev ++ [(column, true)])%list).
Proof.
  intros column prev. split; [|split].
  - intros Hin. split; [|now apply toggleEntry_keys].
    induction prev as [|[k v] rest IH]; [contradiction|].
    cbn [toggleEntry]. destruct (k =? column) eqn:Hk.
    + cbn [toggleEntry]. rewrite Hk. now rewrite negb_involutive.
    + cbn [toggleEntry]. rewrite Hk. f_equal. apply IH.
      destruct Hin as [Heq|Hin]; [|assumption].
      simpl in Heq. subst. now rewrite String.eqb_refl in Hk.
  - intros k v Hne. induction prev as [|[k' v'] rest IH].
    + cbn. split; [intros [Heq|[]]; injection Heq as Hk _; congruence|intros []].
    + cbn [toggleEntry]. destruct (k' =? column) eqn:Hk.
      * apply String.eqb_eq in Hk. subst k'. cbn [In].
        split; (intros [Heq|Hin]; [injection Heq as Hk _; congruence|now right]).
      * cbn [In]. rewrite IH. reflexivity.
  - intros Hnot. induction prev as [|[k v] rest IH]; [reflexivity|].
    cbn [toggleEntry]. destruct (k =? column) eqn:Hk.
    + apply String.eqb_eq in Hk. subst k. exfalso. apply Hnot. now left.
    + cbn [app]. f_equal. apply IH. intros Hin. apply Hnot. now right.
Qed.

Lemma handleSelectItem_spec :
  forall (id' : string) (st : state),
    let st' := handleSelectItem id' st in
    (In id' (selectedItems st') <-> ~ In id' (selectedItems st)) /\
    (forall other, other <> id' ->
       (In other (selectedItems st') <-> In other (selectedItems st))) /\
    (NoDup (selectedItems st) -> NoDup (selectedItems st')) /\
    submissions st' = submissions st.
Proof.
  intros id' st st'. subst st'.
  cbn [handleSelectItem setSelectedItems selectedItems submissions].
  destruct (arrayIncludes (selectedItems st) id') eqn:Hinc.
  - apply arrayIncludes_In in Hinc. repeat split.
    + intros Hin. apply filter_In in Hin. destruct Hin as [_ Hne].
      rewrite String.eqb_refl in Hne. discriminate.
    + intros Hnot. contradiction.
    + intros Hin. apply filter_In in Hin. tauto.
    + intros Hin. apply filter_In. split; [assumption|].
      apply negb_true_iff. now apply String.eqb_neq.
    + intros Hnd. now apply NoDup_filter.
  - assert (Hnot : ~ In id' (selectedItems st)).
    { intros Hin. apply arrayIncludes_In in Hin. congruence. }
    repeat split.
    + intros _. exact Hnot.
    + intros _. apply in_or_app. right. now left.
    + intros Hin. apply in_app_or in Hin. destruct Hin as [Hin|[Heq|[]]]; congruence.
    + intros Hin. apply in_or_app. now left.
    + intros Hnd. apply NoDup_rev in Hnd.
      rewrite <- (rev_involutive (selectedItems st ++ [id'])).
      apply NoDup_rev. rewrite rev_app_distr. cbn. constructor; [|assumption].
      intros Hin. apply Hnot. now apply in_rev.
Qed.

(** X15: Ticking a row's box toggles its id in the selection and touches no other
    id; a selection without repetition stays so. *)
Theorem select_item_toggles :
  forall (id' : string) (st : state),
    let st' := handleSelectItem id' st in
    (In id' (selectedItems st') <-> ~ In id' (selectedItems st)) /\
    (forall other, other <> id' ->
       (In other (selectedItems st') <-> In other (selectedItems st))) /\
    (NoDup (selectedItems st) -> NoDup (selectedItems st')) /\
    submissions st' = submissions st.
Proof. exact handleSelectItem_spec. Qed.

(** X16: The header box selects exactly the rows of the table (the filtered rows
    of all pages, in display order) unless as many ids as the table has rows
    are selected already, in which case it clears the selection; used twice
    on a table that is not empty it selects all and then none. *)
Theorem select_all_toggles :
  forall st : state,
    let ids := map id (filteredSubmissions st) in
    let st' := handleSelectAll st in
    (List.length (selectedItems st) <> List.length ids ->
     selectedItems st' = ids /\ selectedItems (handleSelectAll st') = []) /\
    (List.length (selectedItems st) = List.length ids -> selectedItems st' = []) /\
    filteredSubmissions st' = filteredSubmissions st /\
    submissions st' = submissions st.
Proof.
  intros st ids st'. subst ids st'. unfold handleSelectAll.
  destruct (List.length (selectedItems st) =? List.length (filteredSubmissions st))%nat
    eqn:Hlen.
  - apply Nat.eqb_eq in Hlen.
    split; [|split; [intros _; reflexivity|split; reflexivity]].
    intros Hne. rewrite length_map in Hne. contradiction.
  - apply Nat.eqb_neq in Hlen. split; [|split; [|split; reflexivity]].
    + intros _. split; [reflexivity|].
      cbn [setSelectedItems selectedItems].
      change (filteredSubmissions
                (setSelectedItems (fun _ => map id (filteredSubmissions st)) st))
        with (filteredSubmissions st).
      cbn [selectedItems setSelectedItems].
      rewrite length_map, Nat.eqb_refl. reflexivity.
    + intros Heq. rewrite length_map in Heq. contradiction.
Qed.

Lemma firstn_add :
  forall (A : Type) (a b : nat) (l : list A),
    firstn (a + b) l = (firstn a l ++ firstn b (skipn a l))%list.
Proof.
  intros A a b. induction a as [|a IH]; intros l; [reflexivity|].
  destruct l as [|x l]; cbn; [now rewrite firstn_nil|now rewrite IH].
Qed.

(** [slice] between two indices that are not negative is the window of the
    list that starts at the first and has their difference as its width. *)
Lemma slice_window :
  forall (A : Type) (l : list A) (a b : nat),
    slice (Z.of_nat a) (Z.of_nat (a + b)) l = firstn b (skipn a l).
Proof.
  intros A l a b. unfold slice.
  replace (Z.of_nat a <? 0)%Z with false by (symmetry; apply Z.ltb_ge; lia).
  replace (Z.of_nat (a + b) <? 0)%Z with false by (symmetry; apply Z.ltb_ge; lia).
  destruct (Nat.le_gt_cases a (List.length l)) as [Hle|Hgt].
  - replace (Z.to_nat (Z.min (Z.of_nat a) (Z.of_nat (List.length l)))) with a by lia.
    destruct (Nat.le_gt_cases b (List.length l - a)) as [Hb|Hb].
    + f_equal. lia.
    + rewrite !firstn_all2; [reflexivity| |]; rewrite length_skipn; lia.
  - rewrite (skipn_all2 l (n := a)) by lia. rewrite firstn_nil.
    replace (Z.to_nat (Z.min (Z.of_nat (a + b)) (Z.of_nat (List.length l))
                       - Z.min (Z.of_nat a) (Z.of_nat (List.length l)))) with 0%nat by lia.
    reflexivity.
Qed.

(** Page [i + 1] is the window of ten rows that starts at row [10 i]. *)
Lemma page_window :
  forall (st : state) (i : nat),
    currentPage st = Z.of_nat (S i) ->
    paginatedSubmissions st = firstn 10 (skipn (i * 10) (filteredSubmissions st)).
Proof.
  intros st i Hp. unfold paginatedSubmissions, itemsPerPage. rewrite Hp.
  replace ((Z.of_nat (S i) - 1) * 10)%Z with (Z.of_nat (i * 10)) by lia.
  replace (Z.of_nat (S i) * 10)%Z with (Z.of_nat (i * 10 + 10)) by lia.
  apply slice_window.
Qed.

Lemma windows_concat :
  forall (A : Type) (l : list A) (n : nat),
    flat_map (fun i => firstn 10 (skipn (i * 10) l)) (seq 0 n) = firstn (n * 10) l.
Proof.
  intros A l n. induction n as [|n IH]; [reflexivity|].
  rewrite seq_S, flat_map_app, IH. cbn [flat_map plus]. rewrite app_nil_r.
  replace (S n * 10)%nat with (n * 10 + 10)%nat by lia.
  now rewrite firstn_add.
Qed.

Lemma totalPages_covers :
  forall st : state,
    (0 <= totalPages st)%Z /\
    (List.length (filteredSubmissions st) <= Z.to_nat (totalPages st) * 10)%nat /\
    (10 * (totalPages st - 1) < Z.of_nat (List.length (filteredSubmissions st)))%Z.
Proof.
  intros st.
  pose proof (ceilDiv_spec (Z.of_nat (List.length (filteredSubmissions st)))) as Hc.
  unfold totalPages. unfold itemsPerPage in *.
  set (pages := ceilDiv (Z.of_nat (List.length (filteredSubmissions st))) 10) in *.
  lia.
Qed.

(** X17: The pages 1 to [totalPages], one after the other, are the table: every
    row is on exactly one page, in the table's order. *)
Theorem pages_partition_the_table :
  forall st : state,
    flat_map (fun p => paginatedSubmissions (setCurrentPage (fun _ => Z.of_nat p) st))
             (seq 1 (Z.to_nat (totalPages st)))
    = filteredSubmissions st.
Proof.
  intros st. rewrite <- seq_shift, flat_map_concat_map, map_map, <- flat_map_concat_map.
  rewrite (flat_map_ext _ (fun i => firstn 10 (skipn (i * 10) (filteredSubmissions st)))).
  - rewrite windows_concat. apply firstn_all2. apply totalPages_covers.
  - intros i.
    exact (page_window (setCurrentPage (fun _ => Z.of_nat (S i)) st) i eq_refl).
Qed.

(** X18: A page never holds more than ten rows, whatever the current page; a page
    inside [1, totalPages] is not empty, and full unless it is the last; a
    page above [totalPages], and page 0, are empty. *)
Theorem page_bounds :
  forall st : state,
    (List.length (paginatedSubmissions st) <= 10)%nat /\
    ((1 <= currentPage st <= totalPages st)%Z -> paginatedSubmissions st <> []) /\
    ((1 <= currentPage st < totalPages st)%Z ->
     List.length (paginatedSubmissions st) = 10%nat) /\
    ((totalPages st < currentPage st)%Z -> paginatedSubmissions st = []) /\
    (currentPage st = 0%Z -> paginatedSubmissions st = []).
Proof.
  intros st. destruct (totalPages_covers st) as (Hpos & Hcover & Hlast).
  split; [|split; [|split; [|split]]].
  - unfold paginatedSubmissions, slice, itemsPerPage.
    eapply Nat.le_trans; [apply firstn_le_length|].
    destruct ((currentPage st - 1) * 10 <? 0)%Z eqn:Ha;
      destruct (currentPage st * 10 <? 0)%Z eqn:Hb;
      try apply Z.ltb_lt in Ha; try apply Z.ltb_ge in Ha;
      try apply Z.ltb_lt in Hb; try apply Z.ltb_ge in Hb; lia.
  - intros Hin.
    rewrite (page_window st (Z.to_nat (currentPage st - 1))) by lia.
    intros Hnil. apply (f_equal (@List.length submission)) in Hnil.
    rewrite length_firstn, length_skipn in Hnil. cbn [List.length] in Hnil. lia.
  - intros Hin.
    rewrite (page_window st (Z.to_nat (currentPage st - 1))) by lia.
    rewrite length_firstn, length_skipn. lia.
  - intros Habove.
    rewrite (page_window st (Z.to_nat (currentPage st - 1))) by lia.
    rewrite skipn_all2 by lia. apply firstn_nil.
  - intros Hzero. unfold paginatedSubmissions, slice, itemsPerPage. rewrite Hzero.
    cbn [Z.sub Z.mul Z.ltb Z.compare Z.opp Z.add Z.pos_sub].
    match goal with
    | |- firstn ?n _ = [] => replace n with 0%nat by lia
    end.
    reflexivity.
Qed.

Lemma string_app_assoc :
  forall a b c : string, (a ++ b) ++ c = a ++ (b ++ c).
Proof.
  induction a as [|x a IH]; intros b c; [reflexivity|]. cbn. now rewrite IH.
Qed.

(** Reading on from inside a cell: the doubled text of a cell is read back
    as the cell, put in front of whatever the rest of the line starts with. *)
Lemma inside_cell :
  forall (cell tail start : string) (rest : list string),
    CsvRow.inside tail = Some (start :: rest) ->
    CsvRow.inside (Js.doubleQuotes cell ++ tail) = Some ((cell ++ start) :: rest).
Proof.
  induction cell as [|c cell IH]; intros tail start rest Htail; [exact Htail|].
  cbn [Js.doubleQuotes]. destruct (Ascii.eqb c Js.dquote) eqn:Hc.
  - apply Ascii.eqb_eq in Hc. subst c.
    cbn [append CsvRow.inside]. rewrite Ascii.eqb_refl.
    now rewrite (IH tail start rest Htail).
  - cbn [append CsvRow.inside]. rewrite Hc.
    now rewrite (IH tail start rest Htail).
Qed.

Lemma string_app_empty : forall s : string, s ++ EmptyString = s.
Proof. induction s as [|c s IH]; [reflexivity|]. cbn. now rewrite IH. Qed.

(** Reading on at the closing quote of a cell that another cell follows. *)
Lemma inside_next_cell :
  forall (more : string) (l : list string),
    CsvRow.inside more = Some l ->
    CsvRow.inside (String Js.dquote (String ","%char (String Js.dquote more)))
    = Some (EmptyString :: l).
Proof.
  intros more l Hmore.
  change (CsvRow.inside (String Js.dquote (String ","%char (String Js.dquote more))))
    with (option_map (cons EmptyString) (CsvRow.inside more)).
  now rewrite Hmore.
Qed.

(** A joined line of quoted cells starts with a quote. *)
Lemma join_quoted_head :
  forall (cell : string) (line : list string),
    exists more,
      Js.join "," (csvCell (Some (VString cell)) :: line) = String Js.dquote more.
Proof.
  intros cell [|next line]; eexists; reflexivity.
Qed.

Lemma parse_quoted_cells :
  forall (cell : string) (cells : list string),
    CsvRow.parse
      (Js.join "," (map (fun c => csvCell (Some (VString c))) (cell :: cells)))
    = Some (cell :: cells).
Proof.
  intros cell cells. revert cell.
  induction cells as [|next cells IH]; intros cell.
  - change (CsvRow.inside (Js.doubleQuotes cell ++ String Js.dquote EmptyString)
            = Some [cell]).
    rewrite (inside_cell cell _ EmptyString []) by reflexivity.
    now rewrite string_app_empty.
  - specialize (IH next). cbn [map] in IH |- *.
    destruct (join_quoted_head next (map (fun c => csvCell (Some (VString c))) cells))
      as [more Hmore].
    rewrite Hmore in IH.
    change (Js.join "," (csvCell (Some (VString cell))
                         :: csvCell (Some (VString next))
                         :: map (fun c => csvCell (Some (VString c))) cells))
      with (csvCell (Some (VString cell)) ++ "," ++
            Js.join "," (csvCell (Some (VString next))
                         :: map (fun c => csvCell (Some (VString c))) cells)).
    rewrite Hmore.
    change (CsvRow.inside more = Some (next :: cells)) in IH.
    change (CsvRow.inside
              ((Js.doubleQuotes cell ++ String Js.dquote EmptyString)
               ++ String ","%char (String Js.dquote more))
            = Some (cell :: next :: cells)).
    rewrite string_app_assoc. cbn [append].
    rewrite (inside_cell cell _ EmptyString (next :: cells)).
    + now rewrite string_app_empty.
    + apply inside_next_cell. exact IH.
Qed.

(** X19: An exported line whose visible columns all hold strings reads back, cell
    by cell, as the values of the row: commas and quotes inside a value do
    not move a column. *)
Theorem csv_row_round_trip :
  forall (visibleColumns : columns) (s : submission) (values : list string),
    visibleKeys visibleColumns <> [] ->
    map (prop s) (visibleKeys visibleColumns) = map (fun v => Some (VString v)) values ->
    CsvRow.parse (csvRow visibleColumns s) = Some values.
Proof.
  intros vc s values Hne Hvals. unfold csvRow.
  rewrite <- (map_map (prop s) csvCell), Hvals, map_map.
  destruct values as [|v values].
  - destruct (visibleKeys vc); [contradiction|discriminate].
  - apply parse_quoted_cells.
Qed.

Lemma beforeChar_split :
  forall (sep : ascii) (d rest : string),
    Js.includes d (String sep EmptyString) = false ->
    Js.beforeChar sep (d ++ String sep rest) = d.
Proof.
  intros sep d rest. induction d as [|c d IH]; intros Hnone.
  - cbn. now rewrite Ascii.eqb_refl.
  - cbn [Js.includes] in Hnone. apply orb_false_iff in Hnone.
    destruct Hnone as [Hhead Htail].
    cbn [append Js.beforeChar].
    destruct (Ascii.eqb c sep) eqn:Hc.
    + apply Ascii.eqb_eq in Hc. subst c. cbn in Hhead.
      destruct (ascii_dec sep sep); [|contradiction].
      destruct d; discriminate.
    + now rewrite (IH Htail).
Qed.

Lemma setIsExporting_restores :
  forall st : state,
    isExporting st = false -> setIsExporting false (setIsExporting true st) = st.
Proof. intros [] Hflag. cbn in *. now subst. Qed.

(** X20: The export takes its name from the date part of the current ISO time,
    depends on the filter only (sort, page and selection do not change a
    character of it), and leaves the view state as it found it. *)
Theorem export_file :
  forall (day rest : string) (st : state),
    Js.includes day "T" = false ->
    isExporting st = false ->
    let nowISO := day ++ String "T"%char rest in
    filename (snd (handleExport nowISO st)) = "submissions_" ++ day ++ ".csv" /\
    mime (snd (handleExport nowISO st)) = "text/csv;charset=utf-8;" /\
    fst (handleExport nowISO st) = st /\
    (forall k f g,
       content (snd (handleExport nowISO (handleSort k (setCurrentPage f (setSelectedItems g st)))))
       = content (snd (handleExport nowISO st))).
Proof.
  intros day rest st Hday Hflag nowISO. subst nowISO.
  cbn [handleExport snd fst filename mime content].
  rewrite (beforeChar_split _ _ _ Hday).
  split; [reflexivity|]. split; [reflexivity|].
  split; [now apply setIsExporting_restores|reflexivity].
Qed.





Lemma map_filter_on_image :
  forall (A B : Type) (f : A -> B) (p : B -> bool) (l : list A),
    map f (filter (fun x => p (f x)) l) = filter p (map f l).
Proof.
  intros A B f p l. induction l as [|x l IH]; [reflexivity|].
  cbn. destruct (p (f x)); cbn; now rewrite IH.
Qed.

(** X22: When the rows in memory mirror the collection and every delete of the
    selection succeeds, they still mirror it afterwards: the same documents
    have gone from both, and the selection is empty. *)
Theorem bulk_delete_keeps_view_in_step :
  forall (deleteDoc : string -> completion unit) (db : list doc) (st : state),
    map id (submissions st) = map doc_id db ->
    (forall i, In i (selectedItems st) -> fulfilled (deleteDoc i) = true) ->
    let st' := fst (handleBulkDelete true deleteDoc db st) in
    let db' := snd (handleBulkDelete true deleteDoc db st) in
    map id (submissions st') = map doc_id db' /\
    (forall i, In i (selectedItems st) -> ~ In i (map doc_id db')) /\
    selectedItems st' = [].
Proof.
  intros deleteDoc db st Hmirror Hall st' db'. subst st' db'.
  unfold handleBulkDelete. cbn [negb].
  rewrite (proj2 (firstRejection_none _ _) Hall). cbn [fst snd].
  cbn [setSelectedItems setSubmissions submissions selectedItems].
  assert (Hdb : filter (fun d => negb (arrayIncludes (selectedItems st) (doc_id d)
                                       && fulfilled (deleteDoc (doc_id d)))) db
                = filter (fun d => negb (arrayIncludes (selectedItems st) (doc_id d))) db).
  { apply filter_ext. intros d.
    destruct (arrayIncludes (selectedItems st) (doc_id d)) eqn:Hinc; [|reflexivity].
    apply arrayIncludes_In in Hinc. now rewrite (Hall _ Hinc). }
  rewrite Hdb.
  rewrite (map_filter_on_image _ _ id (fun i => negb (arrayIncludes (selectedItems st) i))).
  rewrite (map_filter_on_image _ _ doc_id
             (fun i => negb (arrayIncludes (selectedItems st) i))).
  rewrite Hmirror. split; [reflexivity|]. split; [|reflexivity].
  intros i Hi Hin. apply filter_In in Hin. destruct Hin as [_ Hno].
  apply negb_true_iff in Hno.
  apply arrayIncludes_In in Hi. congruence.
Qed.

(** X23: A record written by the form, once stored and loaded by the dashboard,
    shows the three form fields as typed; with telemetry it shows city,
    region and country joined by commas, the platform and the resolution,
    and, when the device refused its location, no coordinates and no map
    link; without telemetry it shows N/A and blanks. *)
Theorem form_record_in_dashboard :
  forall (env : ContactForm.browser) (st : ContactForm.component) (docId : string) (now : Z),
    let row := toSubmission now (Firestore.stored docId (ContactForm.contactDataOf env st)) in
    id row = docId /\
    name row = ContactForm.name (ContactForm.formData st) /\
    email row = ContactForm.email (ContactForm.formData st) /\
    message row = ContactForm.message (ContactForm.formData st) /\
    (ContactForm.getVisitorData env = None ->
     location row = "N/A" /\ coordinates row = None /\ googleMapsUrl row = None /\
     ipAddress row = EmptyString /\ deviceInfo row = EmptyString) /\
    (forall v, ContactForm.getVisitorData env = Some v ->
       location row =
         ContactForm.loc_city (ContactForm.vd_location v) ++ ", " ++
         ContactForm.loc_region (ContactForm.vd_location v) ++ ", " ++
         ContactForm.loc_country (ContactForm.vd_location v) /\
       deviceInfo row = ContactForm.platform env /\
       screenResolution row =
         numberToString (ContactForm.screen_width env) ++ "x"
         ++ numberToString (ContactForm.screen_height env) /\
       (fulfilled (ContactForm.getDeviceLocation env) = false ->
        coordinates row = None /\ googleMapsUrl row = None)).
Proof.
  intros env st docId now row. subst row.
  assert (Hkeep : forall s, Js.orElse (Some s) EmptyString = s).
  { intros s. cbn. destruct (s =? EmptyString) eqn:Hs; [|reflexivity].
    apply String.eqb_eq in Hs. now subst. }
  unfold toSubmission, Firestore.stored, ContactForm.contactDataOf.
  cbn [id name email message location coordinates googleMapsUrl ipAddress deviceInfo
       screenResolution doc_id data data_name data_email data_message
       data_visitorData data_submittedAt
       ContactForm.cd_form ContactForm.cd_visitorData ContactForm.cd_submittedAt].
  rewrite !Hkeep.
  split; [reflexivity|]. split; [reflexivity|]. split; [reflexivity|].
  split; [reflexivity|]. split.
  - intros Hnone. rewrite Hnone. cbn. repeat split.
  - intros v Hv. rewrite Hv.
    destruct (@visitor_data_fields H env v Hv)
      as (Hc & Hr & Hk & _ & _ & Hfix & Hres & _).
    cbn [option_map Firestore.storedVisitor visitor_location visitor_deviceDetails
         device_platform device_screenResolution].
    rewrite !Hkeep.
    split; [|split; [|split]].
    + unfold getLocationString. cbn [city region country pushIfTruthy].
      apply String.eqb_neq in Hc, Hr, Hk. rewrite Hc. cbn [app].
      rewrite Hr. cbn [app]. rewrite Hk. reflexivity.
    + unfold ContactForm.getVisitorData in Hv.
      destruct (ContactForm.fetchIpify env) as [ipResponse|e]; [|discriminate].
      cbn [bind catch] in Hv.
      destruct (ContactForm.ok ipResponse); [|discriminate]. cbn [negb] in Hv.
      destruct (ContactForm.json ipResponse) as [ipData|e]; [|discriminate].
      cbn [bind] in Hv.
      destruct (ContactForm.fetchIpinfo env (ContactForm.ip ipData))
        as [locationResponse|e]; [|discriminate].
      cbn [bind] in Hv.
      destruct (ContactForm.ok locationResponse); [|discriminate]. cbn [negb] in Hv.
      destruct (ContactForm.json locationResponse) as [locationData|e]; [|discriminate].
      cbn [bind catch] in Hv. injection Hv as <-. reflexivity.
    + exact Hres.
    + intros Hrefused.
      destruct Hfix as [(position & Hgeo & _)|(_ & Hlat & Hlng & _)].
      * unfold ContactForm.getDeviceLocation in Hrefused. rewrite Hgeo in Hrefused.
        discriminate.
      * unfold getGoogleMapsUrl, getCoordinates. cbn [latitude longitude].
        rewrite Hlat. split; reflexivity.
Qed.

Lemma In_slice :
  forall (A : Type) (start stop : Z) (l : list A) (x : A), In x (slice start stop l) -> In x l.
Proof.
  intros A start stop l x. unfold slice.
  set (k := Z.to_nat _). set (n := Z.to_nat _). intros Hin.
  rewrite <- (firstn_skipn n l). apply in_or_app. right.
  rewrite <- (firstn_skipn k (skipn n l)). apply in_or_app. now left.
Qed.

Lemma NoDup_map_filter :
  forall (A B : Type) (f : A -> B) (p : A -> bool) (l : list A),
    NoDup (map f l) -> NoDup (map f (filter p l)).
Proof.
  intros A B f p l. induction l as [|x l IH]; intros Hnd; [constructor|].
  cbn [map] in Hnd. apply NoDup_cons_iff in Hnd. destruct Hnd as [Hx Hnd].
  cbn [filter]. destruct (p x); [|now apply IH].
  cbn [map]. constructor; [|now apply IH].
  intros Hin. apply Hx. apply in_map_iff in Hin. destruct Hin as (y & Hy & Hin).
  apply filter_In in Hin. apply in_map_iff. exists y. tauto.
Qed.

Lemma table_ids :
  forall st : state,
    NoDup (map id (submissions st)) ->
    NoDup (map id (filteredSubmissions st)) /\
    incl (map id (filteredSubmissions st)) (map id (submissions st)).
Proof.
  intros st Hnd.
  assert (Hperm : Permutation (map id (filteredSubmissions st)) (map id (filterStep st)))
    by (apply Permutation_map, sortWith_perm).
  split.
  - apply (Permutation_NoDup (Permutation_sym Hperm)). now apply NoDup_map_filter.
  - intros i Hi. apply (Permutation_in _ Hperm) in Hi.
    apply in_map_iff in Hi. destruct Hi as (s & Hs & Hin).
    apply filter_In in Hin. apply in_map_iff. exists s. tauto.
Qed.

Lemma step_keeps_invariant :
  forall st st' : state,
    Session.invariant st -> Session.step st st' -> Session.invariant st'.
Proof.
  intros st st' (Hcols & Hpage & Hkey & Hrows & Hsel & Hincl & Hexp & Hload) Hstep.
  assert (Hempty : incl (@nil string) (map id (submissions st))) by (intros i []).
  destruct Hstep as
    [st docs now Hl Hids | st err now Hl | st term Hi | st column Hi Hc | st k Hi Hk
     | st s Hi Hs | st Hi | st Hi Hp | st Hi Hp | st nowISO Hi He
     | st confirmed deleteDoc db Hi Hne]; unfold Session.invariant.
  - cbn [fetchSubmissions setLoading setSubmissions visibleColumns currentPage
         sortConfig submissions selectedItems isExporting loading].
    rewrite (Hload Hl), map_map.
    repeat split; auto; try solve [constructor | discriminate | intros i []].
  - cbn [fetchSubmissions setLoading setError visibleColumns currentPage
         sortConfig submissions selectedItems isExporting loading].
    repeat split; auto; try discriminate.
  - destruct Hi as [Hl _].
    cbn [setSearchTerm visibleColumns currentPage sortConfig submissions selectedItems
         isExporting loading].
    repeat split; auto; try congruence.
  - destruct Hi as [Hl _].
    cbn [toggleColumn setVisibleColumns visibleColumns currentPage sortConfig submissions
         selectedItems isExporting loading].
    rewrite (toggleEntry_keys column _ Hc).
    repeat split; auto; try congruence.
  - destruct Hi as [Hl _].
    cbn [handleSort setSortConfig visibleColumns currentPage sortConfig submissions
         selectedItems isExporting loading key].
    assert (Hdeclared : In k (map fst initialColumns)).
    { rewrite <- Hcols. apply in_map_iff. exists (k, true). now split. }
    repeat split; auto; try congruence.
  - destruct Hi as [Hl _].
    destruct (handleSelectItem_spec (id s) st) as (Hthis & Hother & Hnd & Hsame).
    assert (Hrow : In (id s) (map id (submissions st))).
    { apply in_map. apply In_slice in Hs.
      apply (Permutation_in _ (sortWith_perm _ _ _)) in Hs.
      unfold filterStep in Hs. apply filter_In in Hs. tauto. }
    assert (Hincl' : incl (selectedItems (handleSelectItem (id s) st))
                          (map id (submissions st))).
    { intros i Hin.
      destruct (string_dec i (id s)) as [->|Hneq]; [exact Hrow|].
      apply Hincl. now apply Hother. }
    rewrite Hsame.
    split; [exact Hcols|]. split; [exact Hpage|]. split; [exact Hkey|].
    split; [exact Hrows|]. split; [now apply Hnd|]. split; [exact Hincl'|].
    split; [exact Hexp|].
    cbn [handleSelectItem setSelectedItems loading]. congruence.
  - destruct Hi as [Hl _]. destruct (table_ids st Hrows) as [Hnd Hsub].
    unfold handleSelectAll.
    destruct (List.length (selectedItems st) =? List.length (filteredSubmissions st))%nat;
      cbn [setSelectedItems visibleColumns currentPage sortConfig submissions
           selectedItems isExporting loading];
      repeat split; auto; try solve [constructor | congruence].
  - destruct Hi as [Hl _].
    cbn [previousPage setCurrentPage visibleColumns currentPage sortConfig submissions
         selectedItems isExporting loading].
    repeat split; auto; try solve [lia | congruence].
  - destruct Hi as [Hl _]. destruct (totalPages_covers st) as (Hpos & _).
    cbn [nextPage setCurrentPage visibleColumns currentPage sortConfig submissions
         selectedItems isExporting loading].
    repeat split; auto; try solve [lia | congruence].
  - destruct Hi as [Hl _].
    cbn [handleExport fst setIsExporting visibleColumns currentPage sortConfig submissions
         selectedItems isExporting loading].
    repeat split; auto; try congruence.
  - destruct Hi as [Hl _]. unfold handleBulkDelete.
    destruct confirmed; cbn [negb fst];
      [|repeat split; auto].
    destruct (firstRejection (selectedItems st) deleteDoc);
      cbn [fst setError setSelectedItems setSubmissions visibleColumns currentPage
           sortConfig submissions selectedItems isExporting loading];
      repeat split; auto;
      try solve [constructor | congruence | now apply NoDup_map_filter | intros i []].
Qed.

Lemma reachable_invariant :
  forall st : state, Session.reachable st -> Session.invariant st.
Proof.
  intros st Hreach. induction Hreach as [|st st' _ IH Hstep].
  - unfold Session.invariant. cbn.
    repeat split; auto;
      try solve [lia | intros i [] | discriminate | (right; right; right; now left)
                 | apply NoDup_nil].
  - exact (step_keeps_invariant st st' IH Hstep).
Qed.

(** X24: Throughout a session the column menu keeps the eight declared columns in
    their order, the current page is never negative, the sort key names a
    declared column, the rows have distinct ids, the selection has no
    repetition and holds ids of loaded rows only, and no export is left
    pending. *)
Theorem session_invariants :
  forall st : state,
    Session.reachable st ->
    map fst (visibleColumns st) = map fst initialColumns /\
    (0 <= currentPage st)%Z /\
    In (key (sortConfig st)) (map fst initialColumns) /\
    NoDup (map id (submissions st)) /\
    NoDup (selectedItems st) /\
    incl (selectedItems st) (map id (submissions st)) /\
    isExporting st = false.
Proof.
  intros st Hreach.
  destruct (reachable_invariant st Hreach) as (Ha & Hb & Hc & Hd & He & Hf & Hg & _).
  repeat split; assumption.
Qed.

(** X25: In a session, a bulk delete in which every delete succeeds removes
    exactly as many rows from the table as were selected, and none of the
    selected ids is left in it. *)
Theorem session_bulk_delete_count :
  forall (st : state) (deleteDoc : string -> completion unit) (db : list doc),
    Session.reachable st ->
    (forall i, In i (selectedItems st) -> fulfilled (deleteDoc i) = true) ->
    let st' := fst (handleBulkDelete true deleteDoc db st) in
    (List.length (submissions st') + List.length (selectedItems st))%nat
      = List.length (submissions st) /\
    (forall i, In i (selectedItems st) -> ~ In i (map id (submissions st'))).
Proof.
  intros st deleteDoc db Hreach Hall st'. subst st'.
  destruct (reachable_invariant st Hreach) as (_ & _ & _ & Hrows & Hsel & Hincl & _).
  unfold handleBulkDelete. cbn [negb].
  rewrite (proj2 (firstRejection_none _ _) Hall).
  cbn [fst setSelectedItems setSubmissions submissions].
  split.
  - pose proof (filter_length (fun s => arrayIncludes (selectedItems st) (id s))
                              (submissions st)) as Hparts.
    assert (Hsame : List.length (filter (fun s => arrayIncludes (selectedItems st) (id s))
                                        (submissions st))
                    = List.length (selectedItems st)).
    { rewrite <- (length_map id).
      apply Permutation_length. apply NoDup_Permutation.
      - now apply NoDup_map_filter.
      - exact Hsel.
      - intros i. rewrite in_map_iff. split.
        + intros (s & <- & Hin). apply filter_In in Hin.
          now apply arrayIncludes_In.
        + intros Hi. specialize (Hincl i Hi). apply in_map_iff in Hincl.
          destruct Hincl as (s & <- & Hin). exists s. split; [reflexivity|].
          apply filter_In. split; [assumption|]. now apply arrayIncludes_In. }
    cbn beta in Hparts. lia.
  - intros i Hi Hin. apply in_map_iff in Hin. destruct Hin as (s & <- & Hin).
    apply filter_In in Hin. destruct Hin as [_ Hno].
    apply negb_true_iff in Hno. apply arrayIncludes_In in Hi. congruence.
Qed.

(** X26: Coordinates are produced exactly when the location is present and both
    its latitude and its longitude are truthy numbers, and they are the two
    numbers printed with a comma and a space between; the map link exists
    exactly when the coordinates do, and is the provider address followed by
    them. *)
Theorem coordinates_exactly_when_truthy :
  forall (location : option stored_location) (c url : string),
    (getCoordinates location = Some c <->
     exists l lat lng,
       location = Some l /\ latitude l = Some lat /\ longitude l = Some lng /\
       numberToBoolean lat = true /\ numberToBoolean lng = true /\
       c = numberToString lat ++ ", " ++ numberToString lng) /\
    (getGoogleMapsUrl location = Some url <->
     exists c', getCoordinates location = Some c' /\
                url = "https://www.google.com/maps?q=" ++ c').
Proof.
  intros location c url. split.
  - apply getCoordinates_some.
  - apply getGoogleMapsUrl_some.
Qed.

End DashboardCoverage.

(** *** Further runs on the sample documents *)

Lemma sort_on_empty_column_keeps_order_witness :
  AdminDashboard.filteredSubmissions (H := Samples.testHost) CoverageSamples.namelessByName
  = AdminDashboard.filterStep (H := Samples.testHost) CoverageSamples.namelessByName.
Proof.
  apply (@sort_on_empty_column_keeps_order Samples.testHost CoverageSamples.namelessByName).
  intros s [<-|[<-|[]]]; reflexivity.
Defined.

Lemma row_link_and_location_witness :
  AdminDashboard.location
    (AdminDashboard.toSubmission DashboardSamples.now DashboardSamples.blankDoc) = "N/A" /\
  AdminDashboard.googleMapsUrl
    (AdminDashboard.toSubmission DashboardSamples.now DashboardSamples.blankDoc) = None.
Proof.
  destruct (@row_link_and_location Samples.testHost DashboardSamples.now
              DashboardSamples.blankDoc) as (_ & _ & _ & Hblank & _).
  destruct (Hblank eq_refl) as (Hloc & _ & Hurl & _).
  split; assumption.
Defined.

Lemma toggle_column_laws_witness :
  AdminDashboard.toggleEntry "email"
    (AdminDashboard.toggleEntry "email" AdminDashboard.initialColumns)
  = AdminDashboard.initialColumns /\
  AdminDashboard.toggleEntry "coordinates" AdminDashboard.initialColumns
  = (AdminDashboard.initialColumns ++ [("coordinates", true)])%list.
Proof.
  destruct (toggle_column_laws "email" AdminDashboard.initialColumns) as (Hin & _ & _).
  destruct (toggle_column_laws "coordinates" AdminDashboard.initialColumns)
    as (_ & _ & Hout).
  split.
  - apply Hin. right. left. reflexivity.
  - apply Hout. cbn. intuition discriminate.
Defined.

Lemma select_item_toggles_witness :
  In "A" (AdminDashboard.selectedItems
            (AdminDashboard.handleSelectItem "A" CoverageSamples.twoLoaded)) /\
  NoDup (AdminDashboard.selectedItems
           (AdminDashboard.handleSelectItem "A" CoverageSamples.twoLoaded)).
Proof.
  destruct (select_item_toggles "A" CoverageSamples.twoLoaded) as (Hthis & _ & Hnd & _).
  split.
  - apply Hthis. intros [].
  - apply Hnd. constructor.
Defined.

Lemma select_all_toggles_witness :
  AdminDashboard.selectedItems
    (AdminDashboard.handleSelectAll (H := Samples.testHost) CoverageSamples.twoLoaded)
  = map AdminDashboard.id
        (AdminDashboard.filteredSubmissions (H := Samples.testHost)
           CoverageSamples.twoLoaded) /\
  AdminDashboard.selectedItems
    (AdminDashboard.handleSelectAll (H := Samples.testHost)
       (AdminDashboard.handleSelectAll (H := Samples.testHost) CoverageSamples.twoLoaded))
  = [].
Proof.
  destruct (@select_all_toggles Samples.testHost CoverageSamples.twoLoaded)
    as (Hall & _).
  apply Hall. vm_compute. discriminate.
Defined.

Lemma page_bounds_witness :
  let st := AdminDashboard.nextPage (H := Samples.testHost)
              (DashboardSamples.loaded DashboardSamples.manyDocs) in
  List.length (AdminDashboard.paginatedSubmissions (H := Samples.testHost) st) = 10%nat /\
  AdminDashboard.paginatedSubmissions (H := Samples.testHost)
    (AdminDashboard.setCurrentPage (fun _ => 4%Z) st) = [].
Proof.
  intros st.
  destruct (@page_bounds Samples.testHost st) as (_ & _ & Hfull & _).
  destruct (@page_bounds Samples.testHost (AdminDashboard.setCurrentPage (fun _ => 4%Z) st))
    as (_ & _ & _ & Habove & _).
  split.
  - apply Hfull. split; [apply Z.leb_le|apply Z.ltb_lt]; vm_compute; reflexivity.
  - apply Habove. apply Z.ltb_lt. vm_compute. reflexivity.
Defined.

Lemma csv_row_round_trip_witness :
  CsvRow.parse
    (AdminDashboard.csvRow (H := Samples.testHost) CoverageSamples.stringColumns
       (AdminDashboard.toSubmission DashboardSamples.now DashboardSamples.docJane))
  = Some [DashboardSamples.janeName; "visitor@example.org"; "Hello"; "203.0.113.7";
          "N/A"; "Linux x86_64"; "1920x1080"].
Proof.
  apply (@csv_row_round_trip Samples.testHost).
  - vm_compute. discriminate.
  - vm_compute. reflexivity.
Defined.

Lemma export_file_witness :
  AdminDashboard.filename
    (snd (AdminDashboard.handleExport (H := Samples.testHost) "2025-05-01T10:00:00.000Z"
            CoverageSamples.twoLoaded))
  = "submissions_2025-05-01.csv".
Proof.
  destruct (@export_file Samples.testHost "2025-05-01" "10:00:00.000Z"
              CoverageSamples.twoLoaded eq_refl eq_refl) as (Hname & _).
  exact Hname.
Defined.


Lemma bulk_delete_keeps_view_in_step_witness :
  let r := AdminDashboard.handleBulkDelete true (fun _ => Normal tt)
             [DashboardSamples.docA; DashboardSamples.docB] DashboardSamples.bothSelected in
  map AdminDashboard.id (AdminDashboard.submissions (fst r))
  = map AdminDashboard.doc_id (snd r) /\
  AdminDashboard.selectedItems (fst r) = [].
Proof.
  intros r.
  destruct (@bulk_delete_keeps_view_in_step Samples.testHost (fun _ => Normal tt)
              [DashboardSamples.docA; DashboardSamples.docB] DashboardSamples.bothSelected)
    as (Hsync & _ & Hsel).
  - reflexivity.
  - intros i _. reflexivity.
  - split; assumption.
Defined.

Lemma form_record_in_dashboard_witness :
  let row := AdminDashboard.toSubmission DashboardSamples.now
               (Firestore.stored "doc-1"
                  (ContactForm.contactDataOf Samples.refusedBrowser Samples.filledForm)) in
  AdminDashboard.location row = "Colombo, Western Province, LK" /\
  AdminDashboard.googleMapsUrl row = None.
Proof.
  intros row.
  destruct (@form_record_in_dashboard Samples.testHost Samples.refusedBrowser
              Samples.filledForm "doc-1" DashboardSamples.now)
    as (_ & _ & _ & _ & _ & Hsome).
  edestruct Hsome as (Hloc & _ & _ & Hrefused); [vm_compute; reflexivity|].
  destruct (Hrefused eq_refl) as (_ & Hurl).
  split; [exact Hloc|exact Hurl].
Defined.

(** The sample documents loaded, then both rows ticked, is a session. *)
Lemma both_selected_reachable :
  Session.reachable (H := Samples.testHost) DashboardSamples.bothSelected.
Proof.
  assert (Hloaded : Session.reachable (H := Samples.testHost) CoverageSamples.twoLoaded).
  { apply Session.reachable_step with (st := AdminDashboard.initialState).
    - apply Session.reachable_initial.
    - apply Session.step_fetched; [reflexivity|].
      cbn. repeat constructor; cbn; intuition discriminate. }
  apply Session.reachable_step
    with (st := AdminDashboard.handleSelectItem "A" CoverageSamples.twoLoaded).
  - apply Session.reachable_step with (st := CoverageSamples.twoLoaded); [exact Hloaded|].
    apply (Session.step_select_item CoverageSamples.twoLoaded
             (AdminDashboard.toSubmission DashboardSamples.now DashboardSamples.docA)).
    + split; reflexivity.
    + vm_compute. left. reflexivity.
  - apply (Session.step_select_item
             (AdminDashboard.handleSelectItem "A" CoverageSamples.twoLoaded)
             (AdminDashboard.toSubmission DashboardSamples.now DashboardSamples.docB)).
    + split; reflexivity.
    + vm_compute. right. left. reflexivity.
Defined.

Lemma session_invariants_witness :
  NoDup (AdminDashboard.selectedItems DashboardSamples.bothSelected) /\
  (0 <= AdminDashboard.currentPage DashboardSamples.bothSelected)%Z.
Proof.
  destruct (@session_invariants Samples.testHost DashboardSamples.bothSelected
              both_selected_reachable) as (_ & Hpage & _ & _ & Hnd & _).
  split; assumption.
Defined.

Lemma session_bulk_delete_count_witness :
  (List.length
     (AdminDashboard.submissions
        (fst (AdminDashboard.handleBulkDelete (H := Samples.testHost) true
                (fun _ => Normal tt) [] DashboardSamples.bothSelected)))
   + 2 = 2)%nat.
Proof.
  destruct (@session_bulk_delete_count Samples.testHost DashboardSamples.bothSelected
              (fun _ => Normal tt) [] both_selected_reachable) as (Hcount & _).
  - intros i _. reflexivity.
  - exact Hcount.
Defined.
